(** * Scheduling app: appointments, schedule store and date parsing

    A shallow embedding of [scheduler_app.py]: the class [Appointment], the
    class [SchedulingApp] (loading, saving, adding, removing, the queries
    and the two methods that print a schedule), the function
    [parse_datetime] and the [remove] command of [main]; then the
    properties of the repository's specification and further properties
    of the code. The rest of the command loop of [main] is not part of it.

    Conventions of the embedding.
    - A naive [datetime] is the record of its seven calendar fields, as in
      Python; comparisons are lexicographic on the fields. The functions of
      the standard library the program calls ([isoformat], [fromisoformat],
      [strptime], [datetime + timedelta], [sorted]) are modelled next to it.
    - A dictionary with text members is a [gmap string string].
    - Python exceptions are values of [exn]; a fallible pure computation
      returns a [result]; code that reads or writes an object, the file
      system, the console or the clock is a function [ST S A] from a state
      [S] to a [result A] and the next state. An exception keeps the
      changes made before it was raised. *)

From Stdlib Require Import ZArith List Ascii String Sorted Permutation Lia Bool.
From stdpp Require Import base decidable option list strings gmap pretty.

Local Open Scope Z_scope.

(** ** Exceptions and results *)

Inductive exn : Type :=
  | KeyError (key : string)
  | ValueError
  | OverflowError
  | EOFError
  | OSError (msg : string)
  | JSONDecodeError (msg : string).

Inductive result (A : Type) : Type :=
  | Ok (a : A)
  | Raise (e : exn).
Arguments Ok {A} a.
Arguments Raise {A} e.

#[global] Instance result_ret : MRet result := @Ok.
#[global] Instance result_bind : MBind result :=
  fun A B f r => match r with Ok a => f a | Raise e => Raise e end.
#[global] Instance result_fmap : FMap result :=
  fun A B f r => match r with Ok a => Ok (f a) | Raise e => Raise e end.

(** [str(e)] for the exceptions whose text the program prints (those with
    a message here): a [KeyError] shows the repr of the missing key. The
    other cases are never printed. *)
Definition exn_str (e : exn) : string :=
  match e with
  | KeyError k => "'" +:+ k +:+ "'"
  | JSONDecodeError msg => msg
  | OSError msg => msg
  | ValueError => "ValueError"
  | OverflowError => "OverflowError"
  | EOFError => "EOFError"
  end.

(** ** Naive datetimes *)

Record datetime : Type := mkDatetime {
  year : Z; month : Z; day : Z;
  hour : Z; minute : Z; second : Z; microsecond : Z
}.

#[global] Instance datetime_eq_dec : EqDecision datetime.
Proof. solve_decision. Defined.

Definition is_leap (y : Z) : bool :=
  (y mod 4 =? 0) && (negb (y mod 100 =? 0) || (y mod 400 =? 0)).

Definition days_in_month (y m : Z) : Z :=
  if m =? 2 then (if is_leap y then 29 else 28)
  else if (m =? 4) || (m =? 6) || (m =? 9) || (m =? 11) then 30
  else 31.

Definition MINYEAR : Z := 1.
Definition MAXYEAR : Z := 9999.

Definition valid_date (y m d : Z) : bool :=
  (MINYEAR <=? y) && (y <=? MAXYEAR) && (1 <=? m) && (m <=? 12)
  && (1 <=? d) && (d <=? days_in_month y m).

Definition valid_time (h mi s us : Z) : bool :=
  (0 <=? h) && (h <? 24) && (0 <=? mi) && (mi <? 60)
  && (0 <=? s) && (s <? 60) && (0 <=? us) && (us <? 1000000).

(** The invariant of every [datetime] object Python can build. *)
Definition valid_datetime (d : datetime) : bool :=
  valid_date (year d) (month d) (day d)
  && valid_time (hour d) (minute d) (second d) (microsecond d).

(** The constructor [datetime(y, m, d, h, mi, s, us)] checks the ranges. *)
Definition datetime_new (y m d h mi s us : Z) : result datetime :=
  if valid_date y m d && valid_time h mi s us
  then Ok (mkDatetime y m d h mi s us)
  else Raise ValueError.

Definition fields (d : datetime) : list Z :=
  [year d; month d; day d; hour d; minute d; second d; microsecond d].

Fixpoint lex_compare (xs ys : list Z) : comparison :=
  match xs, ys with
  | [], [] => Eq
  | [], _ :: _ => Lt
  | _ :: _, [] => Gt
  | x :: xs', y :: ys' =>
      match x ?= y with
      | Eq => lex_compare xs' ys'
      | c => c
      end
  end.

Definition datetime_cmp (a b : datetime) : comparison :=
  lex_compare (fields a) (fields b).

(** [a < b], [a > b], [a <= b], [a >= b] on datetimes. *)
Definition dt_lt (a b : datetime) : bool :=
  match datetime_cmp a b with Lt => true | _ => false end.
Definition dt_gt (a b : datetime) : bool :=
  match datetime_cmp a b with Gt => true | _ => false end.
Definition dt_le (a b : datetime) : bool :=
  match datetime_cmp a b with Gt => false | _ => true end.
Definition dt_ge (a b : datetime) : bool :=
  match datetime_cmp a b with Lt => false | _ => true end.

(** The date and the time of day of a datetime, and their combination. *)
Definition date_of (d : datetime) : Z * Z * Z := (year d, month d, day d).
Definition time_of (d : datetime) : Z * Z * Z * Z :=
  (hour d, minute d, second d, microsecond d).
Definition combine (dt : Z * Z * Z) (tm : Z * Z * Z * Z) : datetime :=
  let '(y, m, d) := dt in
  let '(h, mi, s, us) := tm in
  mkDatetime y m d h mi s us.

(** *** Arithmetic with [timedelta], after CPython's [_datetimemodule.c] *)

Record timedelta : Type := mkTimedelta {
  td_days : Z; td_seconds : Z; td_microseconds : Z
}.

Definition MAX_DELTA_DAYS : Z := 999999999.
Definition MAXORDINAL : Z := 3652059.

(** [timedelta(days=n)] *)
Definition timedelta_days (n : Z) : result timedelta :=
  if (- MAX_DELTA_DAYS <=? n) && (n <=? MAX_DELTA_DAYS)
  then Ok (mkTimedelta n 0 0)
  else Raise OverflowError.

Definition days_before_year (y : Z) : Z :=
  let p := y - 1 in p * 365 + p / 4 - p / 100 + p / 400.

Definition days_before_month_table : list Z :=
  [0; 0; 31; 59; 90; 120; 151; 181; 212; 243; 273; 304; 334].

Definition days_before_month (y m : Z) : Z :=
  nth (Z.to_nat m) days_before_month_table 0
  + (if (2 <? m) && is_leap y then 1 else 0).

Definition ymd_to_ord (y m d : Z) : Z :=
  days_before_year y + days_before_month y m + d.

Definition DI4Y : Z := 1461.
Definition DI100Y : Z := 36524.
Definition DI400Y : Z := 146097.

Definition ord_to_ymd (ordinal : Z) : Z * Z * Z :=
  let n := ordinal - 1 in
  let n400 := n / DI400Y in
  let n := n mod DI400Y in
  let n100 := n / DI100Y in
  let n := n mod DI100Y in
  let n4 := n / DI4Y in
  let n := n mod DI4Y in
  let n1 := n / 365 in
  let n := n mod 365 in
  let y := n400 * 400 + 1 + n100 * 100 + n4 * 4 + n1 in
  if (n1 =? 4) || (n100 =? 4) then (y - 1, 12, 31)
  else
    let leapyear := (n1 =? 3) && (negb (n4 =? 24) || (n100 =? 3)) in
    let m := Z.shiftr (n + 50) 5 in
    let preceding :=
      nth (Z.to_nat m) days_before_month_table 0
      + (if (2 <? m) && leapyear then 1 else 0) in
    if n <? preceding
    then (y, m - 1, n - (preceding - days_in_month y (m - 1)) + 1)
    else (y, m, n - preceding + 1).

(** [normalize_pair]: carry the overflow of [lo] into [hi]. *)
Definition normalize_pair (hi lo factor : Z) : Z * Z :=
  (hi + lo / factor, lo mod factor).

(** [normalize_y_m_d]: the month is in range, the day may not be. One day
    out of range is adjusted directly, more through the ordinal. *)
Definition normalize_y_m_d (y m d : Z) : result (Z * Z * Z) :=
  let dim := days_in_month y m in
  let check_year (r : Z * Z * Z) : result (Z * Z * Z) :=
    let '(y', _, _) := r in
    if (MINYEAR <=? y') && (y' <=? MAXYEAR) then Ok r else Raise OverflowError in
  if (d <? 1) || (dim <? d) then
    if d =? 0 then
      if 0 <? m - 1 then check_year (y, m - 1, days_in_month y (m - 1))
      else check_year (y - 1, 12, 31)
    else if d =? dim + 1 then
      if 12 <? m + 1 then check_year (y + 1, 1, 1)
      else check_year (y, m + 1, 1)
    else
      let ordinal := ymd_to_ord y m 1 + d - 1 in
      if (ordinal <? 1) || (MAXORDINAL <? ordinal) then Raise OverflowError
      else Ok (ord_to_ymd ordinal)
  else check_year (y, m, d).

(** [datetime + timedelta] *)
Definition datetime_add (dt : datetime) (delta : timedelta) : result datetime :=
  let '(s, us) := normalize_pair (second dt + td_seconds delta)
                                 (microsecond dt + td_microseconds delta) 1000000 in
  let '(mi, s) := normalize_pair (minute dt) s 60 in
  let '(h, mi) := normalize_pair (hour dt) mi 60 in
  let '(d, h) := normalize_pair (day dt + td_days delta) h 24 in
  '(y, m, d) ← normalize_y_m_d (year dt) (month dt) d;
  Ok (mkDatetime y m d h mi s us).

(** [dt.replace(hour=0, minute=0, second=0, microsecond=0)] *)
Definition start_of_day (dt : datetime) : datetime :=
  mkDatetime (year dt) (month dt) (day dt) 0 0 0 0.

(** *** Decimal digits *)

Definition digit_char (n : Z) : ascii := ascii_of_nat (Z.to_nat (48 + n)).

Definition is_digit (c : ascii) : bool :=
  let n := Z.of_nat (nat_of_ascii c) in (48 <=? n) && (n <=? 57).

Definition digit_value (c : ascii) : Z := Z.of_nat (nat_of_ascii c) - 48.

(** The [w] decimal digits of [z], zero filled: C's ["%0wd"] for
    [0 <= z < 10^w], which the datetime invariant guarantees. *)
Fixpoint pad (w : nat) (z : Z) : list ascii :=
  match w with
  | O => []
  | S w' => pad w' (z / 10) ++ [digit_char (z mod 10)]
  end.

(** Read exactly [n] decimal digits. *)
Fixpoint take_digits (n : nat) (acc : Z) (cs : list ascii) : option (Z * list ascii) :=
  match n with
  | O => Some (acc, cs)
  | S n' =>
      match cs with
      | c :: cs' =>
          if is_digit c then take_digits n' (10 * acc + digit_value c) cs' else None
      | [] => None
      end
  end.

Definition expect (c : ascii) (cs : list ascii) : option (list ascii) :=
  match cs with
  | c' :: cs' => if Ascii.eqb c c' then Some cs' else None
  | [] => None
  end.

(** *** ISO 8601 text *)

(** [dt.isoformat()]: [YYYY-MM-DDTHH:MM:SS], with [.ffffff] when the
    microsecond is not zero. *)
Definition isoformat (d : datetime) : string :=
  string_of_list_ascii
    (pad 4 (year d) ++ "-"%char :: pad 2 (month d) ++ "-"%char :: pad 2 (day d)
     ++ "T"%char :: pad 2 (hour d) ++ ":"%char :: pad 2 (minute d)
     ++ ":"%char :: pad 2 (second d)
     ++ (if microsecond d =? 0 then [] else "."%char :: pad 6 (microsecond d))).

Definition parse_iso_date (cs : list ascii) : option (Z * Z * Z * list ascii) :=
  '(y, cs) ← take_digits 4 0 cs;
  cs ← expect "-" cs;
  '(m, cs) ← take_digits 2 0 cs;
  cs ← expect "-" cs;
  '(d, cs) ← take_digits 2 0 cs;
  Some (y, m, d, cs).

(** [HH[:MM[:SS[.fff[fff]]]]] *)
Definition parse_iso_time (cs : list ascii) : option (Z * Z * Z * Z) :=
  '(h, cs) ← take_digits 2 0 cs;
  match cs with
  | [] => Some (h, 0, 0, 0)
  | _ =>
    cs ← expect ":" cs;
    '(mi, cs) ← take_digits 2 0 cs;
    match cs with
    | [] => Some (h, mi, 0, 0)
    | _ =>
      cs ← expect ":" cs;
      '(s, cs) ← take_digits 2 0 cs;
      match cs with
      | [] => Some (h, mi, s, 0)
      | _ =>
        cs ← expect "." cs;
        '(f3, cs) ← take_digits 3 0 cs;
        match cs with
        | [] => Some (h, mi, s, f3 * 1000)
        | _ =>
          '(f6, cs) ← take_digits 3 f3 cs;
          match cs with
          | [] => Some (h, mi, s, f6)
          | _ => None
          end
        end
      end
    end
  end.

(** [datetime.fromisoformat(s)] on the texts of naive datetimes: a date
    [YYYY-MM-DD], alone or followed by one separator character and a
    time. The model covers the grammar that [isoformat] writes (the one of
    CPython 3.7 to 3.10); texts with a UTC offset, and the further ISO 8601
    spellings later interpreters read, are outside it: a datetime that
    the model returns is the one every interpreter returns, while a text
    the model refuses may be one of those. *)
Definition fromisoformat (s : string) : result datetime :=
  match parse_iso_date (list_ascii_of_string s) with
  | None => Raise ValueError
  | Some (y, m, d, []) => datetime_new y m d 0 0 0 0
  | Some (y, m, d, _ :: tstr) =>
      match parse_iso_time tstr with
      | None => Raise ValueError
      | Some (h, mi, sec, us) => datetime_new y m d h mi sec us
      end
  end.

(** *** [datetime.strptime] for the directives the program uses

    [strptime] turns the format into a regular expression, takes its first
    match at the start of the text (alternatives in the order written,
    with backtracking), refuses text left over after the match, and
    builds the datetime from the numbers read. Characters are ASCII. *)

Inductive directive : Type :=
  | DirY | Dirm | Dird | DirH | DirM
  | Lit (c : ascii).

Definition charclass : Type := ascii -> bool.

Definition one (c : ascii) : charclass := Ascii.eqb c.

Definition range (lo hi : ascii) : charclass :=
  fun c => (nat_of_ascii lo <=? nat_of_ascii c)%nat
           && (nat_of_ascii c <=? nat_of_ascii hi)%nat.

(** The expression of each directive, as in [_strptime.TimeRE]:
    [%Y] is [\d\d\d\d], [%m] is [1[0-2]|0[1-9]|[1-9]],
    [%d] is [3[0-1]|[1-2]\d|0[1-9]|[1-9]| [1-9]],
    [%H] is [2[0-3]|[0-1]\d|\d], [%M] is [[0-5]\d|\d]. *)
Definition alternatives (d : directive) : list (list charclass) :=
  match d with
  | DirY => [[is_digit; is_digit; is_digit; is_digit]]
  | Dirm => [[one "1"; range "0" "2"]; [one "0"; range "1" "9"]; [range "1" "9"]]
  | Dird => [[one "3"; range "0" "1"]; [range "1" "2"; is_digit];
             [one "0"; range "1" "9"]; [range "1" "9"]; [one " "; range "1" "9"]]
  | DirH => [[one "2"; range "0" "3"]; [range "0" "1"; is_digit]; [is_digit]]
  | DirM => [[range "0" "5"; is_digit]; [is_digit]]
  | Lit c => [[one c]]
  end.

Fixpoint compile_format (fmt : list ascii) : option (list directive) :=
  match fmt with
  | [] => Some []
  | "%"%char :: c :: rest =>
      ds ← compile_format rest;
      if Ascii.eqb c "Y" then Some (DirY :: ds)
      else if Ascii.eqb c "m" then Some (Dirm :: ds)
      else if Ascii.eqb c "d" then Some (Dird :: ds)
      else if Ascii.eqb c "H" then Some (DirH :: ds)
      else if Ascii.eqb c "M" then Some (DirM :: ds)
      else None
  | c :: rest => ds ← compile_format rest; Some (Lit c :: ds)
  end.

Fixpoint match_alt (alt : list charclass) (cs : list ascii)
  : option (list ascii * list ascii) :=
  match alt with
  | [] => Some ([], cs)
  | p :: alt' =>
      match cs with
      | c :: cs' =>
          if p c then '(m, r) ← match_alt alt' cs'; Some (c :: m, r) else None
      | [] => None
      end
  end.

Fixpoint first_some {A B : Type} (f : A -> option B) (l : list A) : option B :=
  match l with
  | [] => None
  | a :: l' => match f a with Some b => Some b | None => first_some f l' end
  end.

(** [int(text)] of a matched group: its digits (a day may start with a
    blank). *)
Definition int_of (cs : list ascii) : Z :=
  fold_left (fun acc c => if is_digit c then 10 * acc + digit_value c else acc) cs 0.

Record parsed : Type := mkParsed {
  p_year : Z; p_month : Z; p_day : Z; p_hour : Z; p_minute : Z
}.

(** What [strptime] assumes for the fields the format does not name. *)
Definition parsed_default : parsed := mkParsed 1900 1 1 0 0.

Definition store (d : directive) (v : Z) (p : parsed) : parsed :=
  match d with
  | DirY => mkParsed v (p_month p) (p_day p) (p_hour p) (p_minute p)
  | Dirm => mkParsed (p_year p) v (p_day p) (p_hour p) (p_minute p)
  | Dird => mkParsed (p_year p) (p_month p) v (p_hour p) (p_minute p)
  | DirH => mkParsed (p_year p) (p_month p) (p_day p) v (p_minute p)
  | DirM => mkParsed (p_year p) (p_month p) (p_day p) (p_hour p) v
  | Lit _ => p
  end.

Fixpoint match_directives (ds : list directive) (cs : list ascii) (p : parsed)
  : option (parsed * list ascii) :=
  match ds with
  | [] => Some (p, cs)
  | d :: ds' =>
      first_some
        (fun alt =>
           match match_alt alt cs with
           | Some (m, rest) => match_directives ds' rest (store d (int_of m) p)
           | None => None
           end)
        (alternatives d)
  end.

Definition strptime (s fmt : string) : result datetime :=
  match compile_format (list_ascii_of_string fmt) with
  | None => Raise ValueError
  | Some ds =>
      match match_directives ds (list_ascii_of_string s) parsed_default with
      | Some (p, []) =>
          datetime_new (p_year p) (p_month p) (p_day p) (p_hour p) (p_minute p) 0 0
      | Some (_, _ :: _) => Raise ValueError
      | None => Raise ValueError
      end
  end.

(** ** [parse_datetime] *)

Definition date_formats : list string := ["%Y-%m-%d"; "%m/%d/%Y"; "%d/%m/%Y"].

(** The [for ... else] over the date formats: the first format that
    [strptime] accepts gives the date; a [ValueError] moves on to the
    next one, and when none is left ["Invalid date format"] is raised. *)
Fixpoint parse_date (date_str : string) (fmts : list string) : result (Z * Z * Z) :=
  match fmts with
  | [] => Raise ValueError
  | date_fmt :: rest =>
      match strptime date_str date_fmt with
      | Ok dt => Ok (date_of dt)
      | Raise ValueError => parse_date date_str rest
      | Raise e => Raise e
      end
  end.

(** The enclosing [try] turns every [ValueError] into a [ValueError] with
    a longer message; messages are not modelled, so it is the identity. *)
Definition parse_datetime (date_str time_str : string) : result datetime :=
  date_obj ← parse_date date_str date_formats;
  time_obj ← time_of <$> strptime time_str "%H:%M";
  Ok (combine date_obj time_obj).

(** ** The world outside the objects, and stateful computations *)

(** What [json.load] finds in a file: text that is not JSON (the message
    is the one of the [JSONDecodeError]), or a list of objects with text
    members, the shape [json.dump] writes here. Members may be missing and
    timestamps may be any text. A file that exists and cannot be opened
    for reading, and JSON of another shape (a value that is not a list,
    an element that is not an object, a member that is not text), have no
    value in this type: what is proved of loading is proved of the files
    that have one. *)
Inductive file_content : Type :=
  | Malformed (msg : string)
  | Records (data : list (gmap string string)).

Record World : Type := mkWorld {
  fs : gmap string file_content;      (* the files that exist, by path *)
  write_error : gmap string string;   (* paths that cannot be opened for
                                         writing, with the [OSError] text *)
  stdout : list string;               (* what was written, oldest first *)
  stdin : list string;                (* the lines still to be read *)
  clock : nat -> datetime;            (* successive values of [datetime.now()] *)
  ticks : nat;                        (* how many were read so far *)
  timestamp_us : datetime -> Z        (* [int(dt.timestamp() * 1000000)] *)
}.

Definition ST (S A : Type) : Type := S -> result A * S.

#[global] Instance ST_ret {S} : MRet (ST S) := fun A a s => (Ok a, s).
#[global] Instance ST_bind {S} : MBind (ST S) :=
  fun A B f m s =>
    match m s with
    | (Ok a, s') => f a s'
    | (Raise e, s') => (Raise e, s')
    end.

Definition pure {S A} (r : result A) : ST S A := fun s => (r, s).
Definition get {S} : ST S S := fun s => (Ok s, s).

(** [try: body except <caught> as e: handler e] *)
Definition try_except {S A} (body : ST S A) (caught : exn -> bool)
    (handler : exn -> ST S A) : ST S A :=
  fun s =>
    match body s with
    | (Raise e, s') => if caught e then handler e s' else (Raise e, s')
    | r => r
    end.

Fixpoint mapM {S A B} (f : A -> ST S B) (l : list A) : ST S (list B) :=
  match l with
  | [] => mret []
  | a :: l' => b ← f a; bs ← mapM f l'; mret (b :: bs)
  end.

Fixpoint for_each {S A} (f : A -> ST S unit) (l : list A) : ST S unit :=
  match l with
  | [] => mret tt
  | a :: l' => f a;; for_each f l'
  end.

Definition nl : string := String (ascii_of_nat 10) EmptyString.

Definition write_stdout (text : string) : ST World unit :=
  fun w => (Ok tt, mkWorld (fs w) (write_error w) (stdout w ++ [text]) (stdin w)
                           (clock w) (ticks w) (timestamp_us w)).

(** [print(line)] *)
Definition print (line : string) : ST World unit := write_stdout (line +:+ nl).

Definition read_line : ST World string :=
  fun w =>
    match stdin w with
    | [] => (Raise EOFError, w)
    | line :: rest =>
        (Ok line, mkWorld (fs w) (write_error w) (stdout w) rest
                          (clock w) (ticks w) (timestamp_us w))
    end.

(** [input(prompt)] *)
Definition input (prompt : string) : ST World string :=
  write_stdout prompt;; read_line.

(** [datetime.now()] *)
Definition now : ST World datetime :=
  fun w => (Ok (clock w (ticks w)),
            mkWorld (fs w) (write_error w) (stdout w) (stdin w)
                    (clock w) (S (ticks w)) (timestamp_us w)).

(** [with open(path, 'w') as f: json.dump(data, f, indent=2)] *)
Definition dump_file (path : string) (data : list (gmap string string)) : ST World unit :=
  fun w =>
    match write_error w !! path with
    | Some msg => (Raise (OSError msg), w)
    | None =>
        (Ok tt, mkWorld (<[path := Records data]> (fs w)) (write_error w) (stdout w)
                        (stdin w) (clock w) (ticks w) (timestamp_us w))
    end.

(** [json.load] of an open file *)
Definition json_load (c : file_content) : result (list (gmap string string)) :=
  match c with
  | Malformed msg => Raise (JSONDecodeError msg)
  | Records data => Ok data
  end.

Definition lower_char (c : ascii) : ascii :=
  let n := nat_of_ascii c in
  if (65 <=? n)%nat && (n <=? 90)%nat then ascii_of_nat (n + 32) else c.

(** [s.lower()] on ASCII text *)
Fixpoint lower (s : string) : string :=
  match s with
  | EmptyString => EmptyString
  | String c s' => String (lower_char c) (lower s')
  end.

(** [sorted(l, key=key)] for datetime keys: the stable sort. An element
    goes before the first one whose key is not smaller than its own. *)
Fixpoint insert_by {A} (key : A -> datetime) (x : A) (l : list A) : list A :=
  match l with
  | [] => [x]
  | y :: l' => if dt_lt (key y) (key x) then y :: insert_by key x l' else x :: y :: l'
  end.

Fixpoint sorted {A} (key : A -> datetime) (l : list A) : list A :=
  match l with
  | [] => []
  | x :: l' => insert_by key x (sorted key l')
  end.

(** The order a sort by [key] establishes. *)
Definition key_le {A} (key : A -> datetime) (a b : A) : Prop :=
  dt_le (key a) (key b) = true.

(** ** class Appointment *)

Module Appointment.

Record t : Type := mk {
  id : string;
  title : string;
  start_time : datetime;
  end_time : datetime;
  description : string;
  location : string
}.

#[global] Instance eq_dec : EqDecision t.
Proof. solve_decision. Defined.

(** [str(int(datetime.now().timestamp() * 1000000))] *)
Definition _generate_id : ST World string :=
  dt ← now;
  w ← get;
  mret (pretty (timestamp_us w dt)).

(** [Appointment(title, start_time, end_time, description, location)] *)
Definition init (title : string) (start_time end_time : datetime)
    (description location : string) : ST World t :=
  i ← _generate_id;
  mret (mk i title start_time end_time description location).

Definition to_dict (self : t) : gmap string string :=
  list_to_map
    [("id", id self);
     ("title", title self);
     ("start_time", isoformat (start_time self));
     ("end_time", isoformat (end_time self));
     ("description", description self);
     ("location", location self)].

(** [data[key]] and [data.get(key, default)] *)
Definition getitem (data : gmap string string) (key : string) : result string :=
  match data !! key with
  | Some v => Ok v
  | None => Raise (KeyError key)
  end.

Definition get_default (data : gmap string string) (key default : string) : string :=
  match data !! key with
  | Some v => v
  | None => default
  end.

(** The arguments of the constructor are evaluated from left to right,
    then the object is built (with a fresh id), then the stored id is
    looked up and put in its place. *)
Definition from_dict (data : gmap string string) : ST World t :=
  ttl ← pure (getitem data "title");
  st ← pure (getitem data "start_time" ≫= fromisoformat);
  et ← pure (getitem data "end_time" ≫= fromisoformat);
  let desc := get_default data "description" "" in
  let loc := get_default data "location" "" in
  appointment ← init ttl st et desc loc;
  i ← pure (getitem data "id");
  mret (mk i (title appointment) (start_time appointment) (end_time appointment)
           (description appointment) (location appointment)).

Definition overlaps_with (self other : t) : bool :=
  dt_lt (start_time self) (end_time other)
  && dt_gt (end_time self) (start_time other).

(** [strftime("%Y-%m-%d %H:%M")] and [strftime("%H:%M")]; the C library
    here writes the year without zero filling. *)
Definition __str__ (self : t) : string :=
  let s := start_time self in
  let e := end_time self in
  let start_str :=
    pretty (year s) +:+ "-" +:+ string_of_list_ascii (pad 2 (month s))
    +:+ "-" +:+ string_of_list_ascii (pad 2 (day s))
    +:+ " " +:+ string_of_list_ascii (pad 2 (hour s))
    +:+ ":" +:+ string_of_list_ascii (pad 2 (minute s)) in
  let end_str :=
    string_of_list_ascii (pad 2 (hour e)) +:+ ":"
    +:+ string_of_list_ascii (pad 2 (minute e)) in
  let result := title self +:+ " | " +:+ start_str +:+ " - " +:+ end_str in
  if String.eqb (location self) "" then result
  else result +:+ " | " +:+ location self.

End Appointment.

(** ** class SchedulingApp *)

Module SchedulingApp.

Record t : Type := mk {
  data_file : string;
  appointments : list Appointment.t
}.

(** A method runs on the object and the world. *)
Abbreviation M := (ST (t * World)).

Definition lift_w {A} (m : ST World A) : M A :=
  fun s => let (r, w') := m (snd s) in (r, (fst s, w')).

Definition get_self : M t := fun s => (Ok (fst s), s).
Definition get_world : M World := fun s => (Ok (snd s), s).

(** [self.appointments = l] *)
Definition set_appointments (l : list Appointment.t) : M unit :=
  fun s => (Ok tt, (mk (data_file (fst s)) l, snd s)).

Definition caught_on_load (e : exn) : bool :=
  match e with
  | JSONDecodeError _ | KeyError _ => true
  | _ => false
  end.

Definition load_appointments : M unit :=
  self ← get_self;
  w ← get_world;
  match fs w !! data_file self with
  | None => mret tt
  | Some content =>
      try_except
        (data ← pure (json_load content);
         apts ← mapM (fun apt => lift_w (Appointment.from_dict apt)) data;
         set_appointments apts)
        caught_on_load
        (fun e =>
           lift_w (print ("Error loading appointments: " +:+ exn_str e));;
           set_appointments [])
  end.

(** [SchedulingApp(data_file)] *)
Definition init (data_file : string) : ST World t :=
  fun w =>
    let (r, s) := load_appointments (mk data_file [], w) in
    match r with
    | Ok _ => (Ok (fst s), snd s)
    | Raise e => (Raise e, snd s)
    end.

Definition save_appointments : M unit :=
  try_except
    (self ← get_self;
     let data := map Appointment.to_dict (appointments self) in
     lift_w (dump_file (data_file self) data))
    (fun _ => true)
    (fun e => lift_w (print ("Error saving appointments: " +:+ exn_str e))).

(** The scan of [find_conflicts]: every stored appointment the given one
    overlaps is appended to the answer. *)
Definition find_conflicts (self : t) (appointment : Appointment.t) : list Appointment.t :=
  fold_left
    (fun conflicts existing =>
       if Appointment.overlaps_with appointment existing
       then conflicts ++ [existing]
       else conflicts)
    (appointments self) [].

(** The last step of [add_appointment]. *)
Definition append_and_save (title : string) (new_appointment : Appointment.t) : M bool :=
  self ← get_self;
  set_appointments (appointments self ++ [new_appointment]);;
  save_appointments;;
  lift_w (print ("Appointment '" +:+ title +:+ "' added successfully!"));;
  mret true.

Definition add_appointment (title : string) (start_time end_time : datetime)
    (description location : string) : M bool :=
  if dt_ge start_time end_time then
    lift_w (print "Error: Start time must be before end time");;
    mret false
  else
    new_appointment ← lift_w (Appointment.init title start_time end_time
                                               description location);
    self ← get_self;
    let conflicts := find_conflicts self new_appointment in
    match conflicts with
    | [] => append_and_save title new_appointment
    | _ :: _ =>
        lift_w (print (nl +:+ "Warning: This appointment conflicts with:"));;
        lift_w (for_each (fun conflict => print ("  - " +:+ Appointment.__str__ conflict))
                         conflicts);;
        response ← lift_w (input (nl +:+ "Do you want to add it anyway? (y/n): "));
        if String.eqb (lower response) "y"
        then append_and_save title new_appointment
        else mret false
    end.

(** The scan of [remove_appointment]: index and entry of the first
    appointment with the given id. *)
Fixpoint find_by_id (appointment_id : string) (i : nat) (l : list Appointment.t)
  : option (nat * Appointment.t) :=
  match l with
  | [] => None
  | apt :: l' =>
      if String.eqb (Appointment.id apt) appointment_id then Some (i, apt)
      else find_by_id appointment_id (S i) l'
  end.

(** [pop(i)] takes the entry at index [i] out, which is the one the scan
    stopped at. *)
Definition remove_appointment (appointment_id : string) : M bool :=
  self ← get_self;
  match find_by_id appointment_id 0 (appointments self) with
  | Some (i, removed) =>
      set_appointments (delete i (appointments self));;
      save_appointments;;
      lift_w (print ("Removed appointment: " +:+ Appointment.title removed));;
      mret true
  | None =>
      lift_w (print "Appointment not found");;
      mret false
  end.

Definition get_appointments_for_date (self : t) (date : datetime)
  : result (list Appointment.t) :=
  let start_of_day := start_of_day date in
  end_of_day ← timedelta_days 1 ≫= datetime_add start_of_day;
  Ok (List.filter
        (fun apt => dt_le start_of_day (Appointment.start_time apt)
                    && dt_lt (Appointment.start_time apt) end_of_day)
        (appointments self)).

Definition get_upcoming_appointments (days : Z) : M (list Appointment.t) :=
  now ← lift_w now;
  future_date ← pure (timedelta_days days ≫= datetime_add now);
  self ← get_self;
  let upcoming :=
    List.filter
      (fun apt => dt_le now (Appointment.start_time apt)
                  && dt_le (Appointment.start_time apt) future_date)
      (appointments self) in
  mret (sorted Appointment.start_time upcoming).

End SchedulingApp.

(** ** Sample data *)

Definition at_time (y m d h mi : Z) : datetime := mkDatetime y m d h mi 0 0.

Definition sample_apt (i : string) (s e : datetime) : Appointment.t :=
  Appointment.mk i "meeting" s e "" "office".

(** 2025-01-06, 09:00 to 11:00. *)
Definition nine_to_eleven : Appointment.t :=
  sample_apt "1" (at_time 2025 1 6 9 0) (at_time 2025 1 6 11 0).

(** 2025-01-06, 10:00 to 11:00 and 11:00 to 12:00. *)
Definition ten_to_eleven : Appointment.t :=
  sample_apt "2" (at_time 2025 1 6 10 0) (at_time 2025 1 6 11 0).
Definition eleven_to_twelve : Appointment.t :=
  sample_apt "3" (at_time 2025 1 6 11 0) (at_time 2025 1 6 12 0).

(** An empty interval at 10:00. *)
Definition ten_sharp : Appointment.t :=
  sample_apt "4" (at_time 2025 1 6 10 0) (at_time 2025 1 6 10 0).

(** A world with no file, an empty console and a clock that stands at
    2025-01-06 08:00. *)
Definition sample_world : World :=
  mkWorld ∅ ∅ [] [] (fun _ => at_time 2025 1 6 8 0) 0 (fun _ => 1736150400000000).

Definition sample_app : SchedulingApp.t :=
  SchedulingApp.mk "schedule.json" [nine_to_eleven; eleven_to_twelve].

(** With the clock of [sample_world]: an appointment that starts exactly
    seven days later, and one that started a minute before. *)
Definition week_later : Appointment.t :=
  sample_apt "5" (at_time 2025 1 13 8 0) (at_time 2025 1 13 9 0).
Definition minute_ago : Appointment.t :=
  sample_apt "6" (at_time 2025 1 6 7 59) (at_time 2025 1 6 8 30).

Definition upcoming_app : SchedulingApp.t :=
  SchedulingApp.mk "schedule.json" [week_later; minute_ago; nine_to_eleven].

(** An appointment from 2025-01-06 23:00 to 2025-01-07 01:00, and one on
    the morning of 2025-01-07. *)
Definition overnight : Appointment.t :=
  sample_apt "7" (at_time 2025 1 6 23 0) (at_time 2025 1 7 1 0).
Definition next_morning : Appointment.t :=
  sample_apt "8" (at_time 2025 1 7 9 0) (at_time 2025 1 7 10 0).

Definition day_app : SchedulingApp.t :=
  SchedulingApp.mk "schedule.json" [nine_to_eleven; overnight; next_morning].

(** An appointment on 9999-12-31. *)
Definition last_day_apt : Appointment.t :=
  sample_apt "9" (at_time 9999 12 31 9 0) (at_time 9999 12 31 10 0).

Definition last_day_app : SchedulingApp.t :=
  SchedulingApp.mk "schedule.json" [last_day_apt].

(** A record whose start is not a timestamp, and a world whose data file
    holds it. *)
Definition bad_record : gmap string string :=
  <["start_time" := "not-a-date"]> (Appointment.to_dict nine_to_eleven).

Definition corrupt_world : World :=
  mkWorld {[ "schedule.json" := Records [bad_record] ]} ∅ [] []
          (fun _ => at_time 2025 1 6 8 0) 0 (fun _ => 1736150400000000).

(** A world whose data file holds the appointments of [sample_app] and
    cannot be opened for writing. *)
Definition readonly_world : World :=
  mkWorld {[ "schedule.json" :=
               Records (map Appointment.to_dict (SchedulingApp.appointments sample_app)) ]}
          {[ "schedule.json" := "[Errno 13] Permission denied: 'schedule.json'" ]}
          [] [] (fun _ => at_time 2025 1 6 8 0) 0 (fun _ => 1736150400000000).

(** A world whose data file is not JSON. *)
Definition garbled_world : World :=
  mkWorld {[ "schedule.json" := Malformed "Expecting value: line 1 column 1 (char 0)" ]}
          ∅ [] [] (fun _ => at_time 2025 1 6 8 0) 0 (fun _ => 1736150400000000).

(** A record without its end, and a world whose data file holds a whole
    record followed by it. *)
Definition incomplete_record : gmap string string :=
  delete "end_time" (Appointment.to_dict eleven_to_twelve).

Definition incomplete_world : World :=
  mkWorld {[ "schedule.json" :=
               Records [Appointment.to_dict nine_to_eleven; incomplete_record] ]}
          ∅ [] [] (fun _ => at_time 2025 1 6 8 0) 0 (fun _ => 1736150400000000).

(** ** Worlds after an effect *)

(** The world after [texts] were written to the console. *)
Definition world_printed (w : World) (texts : list string) : World :=
  mkWorld (fs w) (write_error w) (stdout w ++ texts) (stdin w)
          (clock w) (ticks w) (timestamp_us w).

(** The world after the clock was read [n] times. *)
Definition world_ticked (w : World) (n : nat) : World :=
  mkWorld (fs w) (write_error w) (stdout w) (stdin w)
          (clock w) (n + ticks w) (timestamp_us w).

(** The world after [data] was dumped to the file at [path]. *)
Definition world_saved (w : World) (path : string) (data : list (gmap string string)) : World :=
  mkWorld (<[path := Records data]> (fs w)) (write_error w) (stdout w) (stdin w)
          (clock w) (ticks w) (timestamp_us w).

(** The sample world with one line to read on the console. *)
Definition answering_world (line : string) : World :=
  mkWorld ∅ ∅ [] [line] (fun _ => at_time 2025 1 6 8 0) 0 (fun _ => 1736150400000000).

(** The appointment that a record describes: the members of the record
    are its fields, a missing description or location is empty, and the
    timestamps are read from their ISO 8601 text. *)
Definition described_by (data : gmap string string) (apt : Appointment.t) : Prop :=
  data !! "id" = Some (Appointment.id apt)
  /\ data !! "title" = Some (Appointment.title apt)
  /\ (exists s, data !! "start_time" = Some s
                /\ fromisoformat s = Ok (Appointment.start_time apt))
  /\ (exists s, data !! "end_time" = Some s
                /\ fromisoformat s = Ok (Appointment.end_time apt))
  /\ Appointment.description apt = Appointment.get_default data "description" ""
  /\ Appointment.location apt = Appointment.get_default data "location" "".

(** The member that [from_dict] misses in a record: [from_dict] looks up
    the title, reads the start, reads the end, builds the object and
    looks up the id, in this order, so [k] is the first of [title],
    [start_time], [end_time] and [id] that the record lacks, the
    timestamps before it being ISO 8601 texts. *)
Definition first_missing (data : gmap string string) (k : string) : Prop :=
  (k = "title" /\ data !! "title" = None)
  \/ (k = "start_time"
      /\ is_Some (data !! "title")
      /\ data !! "start_time" = None)
  \/ (k = "end_time"
      /\ is_Some (data !! "title")
      /\ (exists s dt, data !! "start_time" = Some s /\ fromisoformat s = Ok dt)
      /\ data !! "end_time" = None)
  \/ (k = "id"
      /\ is_Some (data !! "title")
      /\ (exists s dt, data !! "start_time" = Some s /\ fromisoformat s = Ok dt)
      /\ (exists s dt, data !! "end_time" = Some s /\ fromisoformat s = Ok dt)
      /\ data !! "id" = None).

(** How often the clock is read before the member [k] is missed: the
    object is built, with a fresh id, before the stored id is looked
    up. *)
Definition ticks_before_missing (k : string) : nat :=
  if String.eqb k "id" then 1%nat else 0%nat.

(** The texts of a date in the three forms [parse_datetime] reads, with
    two digits for month and day and four for the year, and the text of
    a time of day with two digits for hour and minute. *)
Definition iso_date_text (d : datetime) : string :=
  string_of_list_ascii
    (pad 4 (year d) ++ "-"%char :: pad 2 (month d) ++ "-"%char :: pad 2 (day d)).

Definition month_first_text (d : datetime) : string :=
  string_of_list_ascii
    (pad 2 (month d) ++ "/"%char :: pad 2 (day d) ++ "/"%char :: pad 4 (year d)).

Definition day_first_text (d : datetime) : string :=
  string_of_list_ascii
    (pad 2 (day d) ++ "/"%char :: pad 2 (month d) ++ "/"%char :: pad 4 (year d)).

Definition hour_minute_text (d : datetime) : string :=
  string_of_list_ascii (pad 2 (hour d) ++ ":"%char :: pad 2 (minute d)).

(** ** The methods of [SchedulingApp] that print *)

#[global] Instance ST_fmap {S} : FMap (ST S) :=
  fun A B f m s =>
    match m s with
    | (Ok a, s') => (Ok (f a), s')
    | (Raise e, s') => (Raise e, s')
    end.

Definition weekday_names : list string :=
  ["Monday"; "Tuesday"; "Wednesday"; "Thursday"; "Friday"; "Saturday"; "Sunday"].

(** [date.weekday()]: Monday is 0. *)
Definition weekday (date : Z * Z * Z) : Z :=
  let '(y, m, d) := date in (ymd_to_ord y m d + 6) mod 7.

(** [strftime('%Y-%m-%d (%A)')] of a date, with the English day names of
    the C locale; the year is written without zero filling, as in
    [Appointment.__str__]. *)
Definition date_header (date : Z * Z * Z) : string :=
  let '(y, m, d) := date in
  pretty y +:+ "-" +:+ string_of_list_ascii (pad 2 m)
  +:+ "-" +:+ string_of_list_ascii (pad 2 d)
  +:+ " (" +:+ nth (Z.to_nat (weekday date)) weekday_names "" +:+ ")".

Module Display.

(** The lines both methods print for an appointment: the first eight
    characters of the id and the appointment, then the description when
    there is one. *)
Definition print_appointment (apt : Appointment.t) : ST World unit :=
  print ("[" +:+ substring 0 8 (Appointment.id apt) +:+ "] " +:+ Appointment.__str__ apt);;
  if String.eqb (Appointment.description apt) "" then mret tt
  else print ("    Description: " +:+ Appointment.description apt).

Definition display_schedule (date : option datetime) : SchedulingApp.M unit :=
  date ← match date with
         | None => SchedulingApp.lift_w now
         | Some d => mret d
         end;
  self ← SchedulingApp.get_self;
  appointments ← pure (SchedulingApp.get_appointments_for_date self date);
  let appointments := sorted Appointment.start_time appointments in
  SchedulingApp.lift_w
    (print (nl +:+ "=== Schedule for " +:+ date_header (date_of date) +:+ " ==="));;
  match appointments with
  | [] => SchedulingApp.lift_w (print "No appointments scheduled")
  | _ :: _ =>
      SchedulingApp.lift_w
        (for_each (fun apt => print_appointment apt;; print "") appointments)
  end.

(** The loop of [display_upcoming]: a header whenever the date of the
    appointment is not the date of the one before. *)
Fixpoint upcoming_loop (current_date : option (Z * Z * Z)) (upcoming : list Appointment.t)
  : ST World unit :=
  match upcoming with
  | [] => mret tt
  | apt :: rest =>
      let apt_date := date_of (Appointment.start_time apt) in
      (if bool_decide (Some apt_date = current_date) then mret tt
       else print (nl +:+ "--- " +:+ date_header apt_date +:+ " ---"));;
      print_appointment apt;;
      upcoming_loop (Some apt_date) rest
  end.

Definition display_upcoming (days : Z) : SchedulingApp.M unit :=
  upcoming ← SchedulingApp.get_upcoming_appointments days;
  SchedulingApp.lift_w
    (print (nl +:+ "=== Upcoming Appointments (Next " +:+ pretty days +:+ " days) ==="));;
  match upcoming with
  | [] => SchedulingApp.lift_w (print "No upcoming appointments")
  | _ :: _ => SchedulingApp.lift_w (upcoming_loop None upcoming)
  end.

End Display.

(** ** The [remove] command of [main] *)

(** The characters [str.strip()] takes away, among the ASCII ones. *)
Definition is_space (c : ascii) : bool :=
  let n := nat_of_ascii c in
  ((9 <=? n)%nat && (n <=? 13)%nat) || ((28 <=? n)%nat && (n <=? 32)%nat).

Fixpoint lstrip (cs : list ascii) : list ascii :=
  match cs with
  | c :: cs' => if is_space c then lstrip cs' else cs
  | [] => []
  end.

(** [s.strip()] on ASCII text. The blanks outside ASCII (the no-break
    space and the like), which [str.strip()] takes away as well, are left
    in place here: what is said of a text that is not empty after
    [strip] is said of ASCII text only. *)
Definition strip (s : string) : string :=
  string_of_list_ascii (rev (lstrip (rev (lstrip (list_ascii_of_string s))))).


Module Main.

(** The scan for the full id: the id of the first appointment whose id
    starts with the text. *)
Fixpoint find_full_id (apt_id : string) (l : list Appointment.t) : option string :=
  match l with
  | [] => None
  | apt :: l' =>
      if String.prefix apt_id (Appointment.id apt) then Some (Appointment.id apt)
      else find_full_id apt_id l'
  end.

(** The branch of the command loop for [remove], from its header to the
    removal; an id that is found but empty counts as not found. *)
Definition remove_command : SchedulingApp.M unit :=
  SchedulingApp.lift_w (print (nl +:+ "--- Remove Appointment ---"));;
  Display.display_upcoming 30;;
  apt_id ← SchedulingApp.lift_w
             (strip <$> input (nl +:+ "Enter appointment ID (first 8 characters): "));
  self ← SchedulingApp.get_self;
  match find_full_id apt_id (SchedulingApp.appointments self) with
  | Some full_id =>
      if String.eqb full_id "" then SchedulingApp.lift_w (print "Appointment not found")
      else SchedulingApp.remove_appointment full_id;; mret tt
  | None => SchedulingApp.lift_w (print "Appointment not found")
  end.

End Main.

(** ** What the printing methods write *)

(** The texts written for one appointment. *)
Definition appointment_lines (apt : Appointment.t) : list string :=
  (("[" +:+ substring 0 8 (Appointment.id apt) +:+ "] " +:+ Appointment.__str__ apt) +:+ nl)
  :: (if String.eqb (Appointment.description apt) "" then []
      else [("    Description: " +:+ Appointment.description apt) +:+ nl]).

(** The runs of neighbours that start on the same date, each with its
    date. *)
Fixpoint group_by_date (l : list Appointment.t) : list (Z * Z * Z * list Appointment.t) :=
  match l with
  | [] => []
  | apt :: rest =>
      let date := date_of (Appointment.start_time apt) in
      match group_by_date rest with
      | (d, g) :: gs =>
          if bool_decide (d = date) then (d, apt :: g) :: gs
          else (date, [apt]) :: (d, g) :: gs
      | [] => [(date, [apt])]
      end
  end.

(** The texts written for a run: the header of its date, then its
    appointments. *)
Definition group_lines (group : Z * Z * Z * list Appointment.t) : list string :=
  ((nl +:+ "--- " +:+ date_header (fst group) +:+ " ---") +:+ nl)
  :: flat_map appointment_lines (snd group).

(** One date before another. *)
Definition date_lt (a b : Z * Z * Z) : Prop :=
  let '(y, m, d) := a in
  let '(y', m', d') := b in
  lex_compare [y; m; d] [y'; m'; d'] = Lt.

(** * Properties *)

(** ** The order on datetimes *)

Lemma lex_compare_refl xs : lex_compare xs xs = Eq.
Proof.
  induction xs as [|x xs IH]; simpl; [reflexivity|].
  rewrite Z.compare_refl. exact IH.
Qed.

Lemma lex_compare_antisym xs ys :
  lex_compare ys xs = CompOpp (lex_compare xs ys).
Proof.
  revert ys. induction xs as [|x xs IH]; intros [|y ys]; simpl; try reflexivity.
  rewrite (Z.compare_antisym x y).
  destruct (x ?= y); simpl; auto.
Qed.

Lemma lex_compare_eq xs ys :
  length xs = length ys -> lex_compare xs ys = Eq -> xs = ys.
Proof.
  revert ys. induction xs as [|x xs IH]; intros [|y ys] Hlen; simpl; try discriminate.
  - reflexivity.
  - destruct (Z.compare_spec x y) as [->| |]; try discriminate.
    intros H. f_equal. apply IH; [simpl in Hlen; lia | exact H].
Qed.

Lemma lex_compare_lt_trans xs ys zs :
  length xs = length ys -> length ys = length zs ->
  lex_compare xs ys = Lt -> lex_compare ys zs = Lt -> lex_compare xs zs = Lt.
Proof.
  revert ys zs.
  induction xs as [|x xs IH]; intros [|y ys] [|z zs] H1 H2; simpl; try discriminate.
  destruct (Z.compare_spec x y) as [->| |]; try discriminate;
    destruct (Z.compare_spec y z) as [->| |]; try discriminate; intros A B.
  - apply (IH ys zs); simpl in *; auto; lia.
  - destruct (Z.compare_spec y z); try lia; reflexivity.
  - destruct (Z.compare_spec x z); try lia; reflexivity.
  - destruct (Z.compare_spec x z); try lia; reflexivity.
Qed.

Lemma datetime_cmp_refl a : datetime_cmp a a = Eq.
Proof. apply lex_compare_refl. Qed.

Lemma datetime_cmp_antisym a b : datetime_cmp b a = CompOpp (datetime_cmp a b).
Proof. apply lex_compare_antisym. Qed.

Lemma datetime_cmp_eq a b : datetime_cmp a b = Eq -> a = b.
Proof.
  intros H. apply lex_compare_eq in H; [|reflexivity].
  destruct a, b. unfold fields in H. simpl in H. congruence.
Qed.

Lemma dt_gt_lt a b : dt_gt a b = dt_lt b a.
Proof.
  unfold dt_gt, dt_lt. rewrite (datetime_cmp_antisym a b).
  destruct (datetime_cmp a b); reflexivity.
Qed.

Lemma dt_lt_irrefl a : dt_lt a a = false.
Proof. unfold dt_lt. rewrite datetime_cmp_refl. reflexivity. Qed.

Lemma dt_lt_trans a b c : dt_lt a b = true -> dt_lt b c = true -> dt_lt a c = true.
Proof.
  unfold dt_lt, datetime_cmp. intros H1 H2.
  destruct (lex_compare (fields a) (fields b)) eqn:E1; try discriminate.
  destruct (lex_compare (fields b) (fields c)) eqn:E2; try discriminate.
  rewrite (lex_compare_lt_trans (fields a) (fields b) (fields c) eq_refl eq_refl E1 E2).
  reflexivity.
Qed.

Lemma dt_le_not_lt a b : dt_le a b = negb (dt_lt b a).
Proof.
  unfold dt_le, dt_lt. rewrite (datetime_cmp_antisym a b).
  destruct (datetime_cmp a b); reflexivity.
Qed.

Lemma dt_ge_not_lt a b : dt_ge a b = negb (dt_lt a b).
Proof. unfold dt_ge, dt_lt. destruct (datetime_cmp a b); reflexivity. Qed.


(** ** Overlap of appointments *)

Lemma overlaps_with_sym (A B : Appointment.t) :
  Appointment.overlaps_with A B = Appointment.overlaps_with B A.
Proof.
  unfold Appointment.overlaps_with.
  rewrite !dt_gt_lt. apply andb_comm.
Qed.

Lemma overlaps_with_self (A : Appointment.t) :
  Appointment.overlaps_with A A
  = dt_lt (Appointment.start_time A) (Appointment.end_time A).
Proof.
  unfold Appointment.overlaps_with. rewrite dt_gt_lt. apply andb_diag.
Qed.

(** C1. [A.overlaps_with(B)] is true exactly when [A] starts before [B]
    ends and [A] ends after [B] starts. An appointment never overlaps one
    that starts at the instant it ends, whatever the other fields are:
    10:00 to 11:00 and 11:00 to 12:00 do not overlap. *)
Theorem overlaps_with_half_open (A B : Appointment.t) :
  (Appointment.overlaps_with A B = true <->
     dt_lt (Appointment.start_time A) (Appointment.end_time B) = true
     /\ dt_gt (Appointment.end_time A) (Appointment.start_time B) = true)
  /\ (forall i ttl e d l,
        Appointment.overlaps_with A
          (Appointment.mk i ttl (Appointment.end_time A) e d l) = false)
  /\ Appointment.overlaps_with ten_to_eleven eleven_to_twelve = false.
Proof.
  split; [|split].
  - unfold Appointment.overlaps_with. apply andb_true_iff.
  - intros i ttl e d l. unfold Appointment.overlaps_with. simpl.
    rewrite dt_gt_lt, dt_lt_irrefl. apply andb_false_r.
  - reflexivity.
Qed.

(** C9, as the code has it. For an appointment [A] with an empty interval
    at instant [t] and any appointment [B], [A.overlaps_with(B)] and
    [B.overlaps_with(A)] agree, and they are true exactly when [t] lies
    strictly inside [B]; in particular [A] does not overlap itself. An
    appointment overlaps itself exactly when its interval is not empty. *)
Theorem overlaps_with_empty_interval
    (i ttl : string) (t : datetime) (d l : string) (B : Appointment.t) :
  let A := Appointment.mk i ttl t t d l in
  Appointment.overlaps_with A B = Appointment.overlaps_with B A
  /\ (Appointment.overlaps_with A B = true <->
        dt_lt (Appointment.start_time B) t = true
        /\ dt_lt t (Appointment.end_time B) = true)
  /\ Appointment.overlaps_with A A = false
  /\ Appointment.overlaps_with B B
     = dt_lt (Appointment.start_time B) (Appointment.end_time B).
Proof.
  intros A. split; [|split; [|split]].
  - apply overlaps_with_sym.
  - unfold Appointment.overlaps_with, A. simpl.
    rewrite dt_gt_lt, andb_true_iff. tauto.
  - rewrite overlaps_with_self. apply dt_lt_irrefl.
  - apply overlaps_with_self.
Qed.

(** C9 as stated fails: the empty interval at 10:00 overlaps the
    appointment from 09:00 to 11:00, in both directions. *)
Lemma empty_interval_overlaps_inside :
  Appointment.start_time ten_sharp = Appointment.end_time ten_sharp
  /\ Appointment.overlaps_with ten_sharp nine_to_eleven = true
  /\ Appointment.overlaps_with nine_to_eleven ten_sharp = true.
Proof. repeat split. Qed.

(** ** Conflicts *)

Lemma find_conflicts_loop (c : Appointment.t) (l acc : list Appointment.t) :
  fold_left
    (fun conflicts existing =>
       if Appointment.overlaps_with c existing
       then conflicts ++ [existing] else conflicts) l acc
  = acc ++ List.filter (Appointment.overlaps_with c) l.
Proof.
  revert acc. induction l as [|x l IH]; intros acc; simpl.
  - now rewrite app_nil_r.
  - rewrite IH. destruct (Appointment.overlaps_with c x); [|reflexivity].
    now rewrite <- app_assoc.
Qed.

(** C8. [find_conflicts(candidate)] is the list of the stored appointments
    that the candidate overlaps, in the order of the store: it holds
    exactly those appointments, and it is a sublist of the store. The
    method reads the store and builds a new list; it returns no new
    store. *)
Theorem find_conflicts_exact (self : SchedulingApp.t) (candidate : Appointment.t) :
  SchedulingApp.find_conflicts self candidate
  = List.filter (Appointment.overlaps_with candidate) (SchedulingApp.appointments self)
  /\ (forall existing,
        In existing (SchedulingApp.find_conflicts self candidate) <->
        In existing (SchedulingApp.appointments self)
        /\ Appointment.overlaps_with candidate existing = true)
  /\ sublist (SchedulingApp.find_conflicts self candidate)
             (SchedulingApp.appointments self).
Proof.
  assert (E : SchedulingApp.find_conflicts self candidate
              = List.filter (Appointment.overlaps_with candidate)
                            (SchedulingApp.appointments self)).
  { unfold SchedulingApp.find_conflicts. now rewrite find_conflicts_loop. }
  rewrite E. split; [reflexivity|split].
  - intros existing. apply filter_In.
  - generalize (SchedulingApp.appointments self) as l.
    induction l as [|x l IH]; simpl.
    + constructor.
    + destruct (Appointment.overlaps_with candidate x).
      * now apply sublist_skip.
      * now apply sublist_cons.
Qed.

(** ** Adding *)

(** C4. When the start is not before the end, [add_appointment] returns
    [False]; the object (the appointments, their order and number) is
    what it was, and in the world only the console changed, by the line
    of the error: no file was written, the clock was not read. *)
Theorem add_appointment_rejects (self : SchedulingApp.t) (w : World)
    (title : string) (start_time end_time : datetime) (description location : string) :
  dt_ge start_time end_time = true ->
  SchedulingApp.add_appointment title start_time end_time description location (self, w)
  = (Ok false,
     (self,
      mkWorld (fs w) (write_error w)
              (stdout w ++ ["Error: Start time must be before end time" +:+ nl])
              (stdin w) (clock w) (ticks w) (timestamp_us w))).
Proof.
  intros H. unfold SchedulingApp.add_appointment. rewrite H.
  destruct self; reflexivity.
Qed.

Lemma add_appointment_rejects_witness :
  SchedulingApp.add_appointment "late" (at_time 2025 1 6 12 0) (at_time 2025 1 6 12 0)
    "" "" (sample_app, sample_world)
  = (Ok false,
     (sample_app,
      mkWorld ∅ ∅ ["Error: Start time must be before end time" +:+ nl] []
              (clock sample_world) 0%nat (timestamp_us sample_world))).
Proof.
  apply (add_appointment_rejects sample_app sample_world "late"
           (at_time 2025 1 6 12 0) (at_time 2025 1 6 12 0) "" "").
  reflexivity.
Defined.

(** ** Removing *)

Lemma find_by_id_none (aid : string) (l : list Appointment.t) (i : nat) :
  (forall apt, In apt l -> Appointment.id apt <> aid) ->
  SchedulingApp.find_by_id aid i l = None.
Proof.
  revert i. induction l as [|x l IH]; intros i H; simpl; [reflexivity|].
  destruct (String.eqb_spec (Appointment.id x) aid) as [E|_].
  - exfalso. apply (H x); [now left | exact E].
  - apply IH. intros apt Hin. apply H. now right.
Qed.

Lemma find_by_id_first (aid : string) (before after : list Appointment.t)
    (x : Appointment.t) (i : nat) :
  (forall apt, In apt before -> Appointment.id apt <> aid) ->
  Appointment.id x = aid ->
  SchedulingApp.find_by_id aid i (before ++ x :: after)
  = Some ((i + length before)%nat, x).
Proof.
  revert i. induction before as [|y before IH]; intros i H E; simpl.
  - rewrite E, String.eqb_refl. do 2 f_equal. lia.
  - destruct (String.eqb_spec (Appointment.id y) aid) as [E'|_].
    + exfalso. apply (H y); [now left | exact E'].
    + rewrite IH; [do 2 f_equal; lia | | exact E].
      intros apt Hin. apply H. now right.
Qed.

Lemma first_with_id (aid : string) (l : list Appointment.t) :
  (exists apt, In apt l /\ Appointment.id apt = aid) ->
  exists before removed after,
    l = before ++ removed :: after
    /\ Appointment.id removed = aid
    /\ (forall apt, In apt before -> Appointment.id apt <> aid).
Proof.
  induction l as [|x l IH]; intros [apt [Hin E]]; [destruct Hin|].
  destruct (decide (Appointment.id x = aid)) as [Ex|Nx].
  - exists [], x, l. split; [reflexivity|]. split; [exact Ex|]. intros ? [].
  - destruct IH as (before & removed & after & -> & Er & Hb).
    { exists apt. split; [|exact E]. destruct Hin as [->|Hin]; [contradiction|exact Hin]. }
    exists (x :: before), removed, after.
    split; [reflexivity|]. split; [exact Er|].
    intros a [<-|Ha]; [exact Nx | now apply Hb].
Qed.

Lemma delete_at_length {A} (before after : list A) (x : A) :
  delete (length before) (before ++ x :: after) = before ++ after.
Proof. induction before as [|y before IH]; simpl; [reflexivity | now rewrite IH]. Qed.




(** ** Decimal digits and ISO 8601 text *)

Lemma digit_char_spec (d : Z) :
  0 <= d < 10 -> is_digit (digit_char d) = true /\ digit_value (digit_char d) = d.
Proof.
  intros H.
  assert (d = 0 \/ d = 1 \/ d = 2 \/ d = 3 \/ d = 4 \/ d = 5 \/ d = 6 \/ d = 7
          \/ d = 8 \/ d = 9) as E by lia.
  repeat (destruct E as [->|E]; [split; reflexivity|]). subst d. split; reflexivity.
Qed.

Lemma take_digits_snoc (n : nat) (acc : Z) (cs : list ascii) :
  take_digits (S n) acc cs
  = match take_digits n acc cs with
    | Some (a, c :: cs') =>
        if is_digit c then Some (10 * a + digit_value c, cs') else None
    | _ => None
    end.
Proof.
  revert acc cs. induction n as [|n IH]; intros acc cs.
  - simpl. destruct cs as [|c cs]; [reflexivity|]. destruct (is_digit c); reflexivity.
  - change (take_digits (S (S n)) acc cs)
      with (match cs with
            | c :: cs' =>
                if is_digit c then take_digits (S n) (10 * acc + digit_value c) cs' else None
            | [] => None
            end).
    destruct cs as [|c cs]; [reflexivity|].
    simpl take_digits at 2.
    destruct (is_digit c); [apply IH | reflexivity].
Qed.

Lemma take_digits_pad (n : nat) (acc z : Z) (rest : list ascii) :
  take_digits n acc (pad n z ++ rest)
  = Some (acc * 10 ^ Z.of_nat n + z mod 10 ^ Z.of_nat n, rest).
Proof.
  revert acc z rest. induction n as [|n IH]; intros acc z rest.
  - simpl. rewrite Z.mod_1_r. do 2 f_equal. lia.
  - rewrite take_digits_snoc.
    change (pad (S n) z) with (pad n (z / 10) ++ [digit_char (z mod 10)]).
    rewrite <- app_assoc. rewrite IH. simpl app.
    destruct (digit_char_spec (z mod 10)) as [-> ->].
    { apply Z.mod_pos_bound. lia. }
    do 2 f_equal.
    rewrite Nat2Z.inj_succ, Z.pow_succ_r by lia.
    assert (P : 0 < 10 ^ Z.of_nat n) by (apply Z.pow_pos_nonneg; lia).
    rewrite Z.rem_mul_r by lia. ring.
Qed.

Lemma take_digits_pad_small (n : nat) (z : Z) (rest : list ascii) :
  0 <= z < 10 ^ Z.of_nat n ->
  take_digits n 0 (pad n z ++ rest) = Some (z, rest).
Proof.
  intros H. rewrite take_digits_pad. rewrite Z.mod_small by exact H.
  reflexivity.
Qed.

Lemma pad_split (a b : nat) (z : Z) :
  pad (b + a) z = pad a (z / 10 ^ Z.of_nat b) ++ pad b z.
Proof.
  revert z. induction b as [|b IH]; intros z.
  - simpl. rewrite Z.div_1_r, app_nil_r. reflexivity.
  - change (pad (S b + a) z) with (pad (b + a) (z / 10) ++ [digit_char (z mod 10)]).
    rewrite IH.
    change (pad (S b) z) with (pad b (z / 10) ++ [digit_char (z mod 10)]).
    rewrite Nat2Z.inj_succ, Z.pow_succ_r by lia.
    rewrite Z.div_div by (try apply Z.pow_pos_nonneg; lia).
    rewrite app_assoc. reflexivity.
Qed.

Lemma pad_S_cons (n : nat) (z : Z) : exists c cs, pad (S n) z = c :: cs.
Proof.
  revert z. induction n as [|n IH]; intros z.
  - simpl. eauto.
  - change (pad (S (S n)) z) with (pad (S n) (z / 10) ++ [digit_char (z mod 10)]).
    destruct (IH (z / 10)) as (c & cs & ->). simpl. eauto.
Qed.

Lemma valid_datetime_bounds (d : datetime) :
  valid_datetime d = true ->
  1 <= year d <= 9999 /\ 1 <= month d <= 12 /\ 1 <= day d <= 31
  /\ 0 <= hour d < 24 /\ 0 <= minute d < 60 /\ 0 <= second d < 60
  /\ 0 <= microsecond d < 1000000.
Proof.
  unfold valid_datetime, valid_date, valid_time, MINYEAR, MAXYEAR.
  intros H.
  assert (days_in_month (year d) (month d) <= 31).
  { unfold days_in_month.
    repeat match goal with |- context [if ?b then _ else _] => destruct b end; lia. }
  repeat (apply andb_prop in H; destruct H as [H ?]). lia.
Qed.

Lemma expect_cons (c : ascii) (cs : list ascii) : expect c (c :: cs) = Some cs.
Proof. unfold expect. now rewrite Ascii.eqb_refl. Qed.

Lemma parse_iso_time_isoformat (h mi s us : Z) :
  0 <= h < 24 -> 0 <= mi < 60 -> 0 <= s < 60 -> 0 <= us < 1000000 ->
  parse_iso_time
    (pad 2 h ++ ":"%char :: pad 2 mi ++ ":"%char :: pad 2 s
     ++ (if us =? 0 then [] else "."%char :: pad 6 us))
  = Some (h, mi, s, us).
Proof.
  intros Hh Hmi Hs Hus. unfold parse_iso_time.
  rewrite take_digits_pad_small by (simpl; lia).
  cbn [mbind option_bind]. rewrite expect_cons. cbn [mbind option_bind].
  rewrite take_digits_pad_small by (simpl; lia).
  cbn [mbind option_bind]. rewrite expect_cons. cbn [mbind option_bind].
  destruct (Z.eqb_spec us 0) as [->|Hnz].
  - rewrite take_digits_pad_small by (simpl; lia). reflexivity.
  - rewrite take_digits_pad_small by (simpl; lia).
    cbn [mbind option_bind]. rewrite expect_cons. cbn [mbind option_bind].
    change 6%nat with (3 + 3)%nat. rewrite pad_split.
    rewrite take_digits_pad. cbn [mbind option_bind].
    destruct (pad 3 us) as [|c cs] eqn:E.
    { destruct (pad_S_cons 2 us) as (c & cs & E'). congruence. }
    rewrite <- E, <- (app_nil_r (pad 3 us)), take_digits_pad.
    cbn [mbind option_bind].
    do 2 f_equal.
    change (10 ^ Z.of_nat 3) with 1000.
    rewrite (Z.mod_small (us / 1000)) by (split; [apply Z.div_pos; lia | apply Z.div_lt_upper_bound; lia]).
    rewrite (Z.div_mod us 1000) at 3 by lia. lia.
Qed.

Lemma fromisoformat_isoformat (d : datetime) :
  valid_datetime d = true -> fromisoformat (isoformat d) = Ok d.
Proof.
  intros V. destruct (valid_datetime_bounds d V) as (Hy & Hm & Hd & Hh & Hmi & Hs & Hus).
  unfold fromisoformat, isoformat.
  rewrite list_ascii_of_string_of_list_ascii.
  unfold parse_iso_date.
  rewrite take_digits_pad_small by (simpl; lia).
  cbn [mbind option_bind]. rewrite expect_cons. cbn [mbind option_bind].
  rewrite take_digits_pad_small by (simpl; lia).
  cbn [mbind option_bind]. rewrite expect_cons. cbn [mbind option_bind].
  rewrite take_digits_pad_small by (simpl; lia).
  cbn [mbind option_bind].
  rewrite parse_iso_time_isoformat by assumption.
  unfold datetime_new. unfold valid_datetime in V. rewrite V.
  destruct d; reflexivity.
Qed.

(** ** Serialization of appointments *)

Lemma record_lookups (a b c d e f : string) :
  let m : gmap string string :=
    list_to_map [("id", a); ("title", b); ("start_time", c); ("end_time", d);
                 ("description", e); ("location", f)] in
  m !! "id" = Some a /\ m !! "title" = Some b /\ m !! "start_time" = Some c
  /\ m !! "end_time" = Some d /\ m !! "description" = Some e
  /\ m !! "location" = Some f.
Proof. repeat split. Qed.

(** C5. An appointment whose timestamps are datetimes (fields in range)
    is read back from its record with the same id, title, start, end,
    description and location: [from_dict(to_dict(A))] returns [A]. It reads
    the clock once, for the id that the constructor makes and that the
    stored id replaces. Each timestamp is read back from its ISO 8601 text
    as it was. *)
Theorem from_dict_to_dict (A : Appointment.t) (w : World) :
  valid_datetime (Appointment.start_time A) = true ->
  valid_datetime (Appointment.end_time A) = true ->
  Appointment.from_dict (Appointment.to_dict A) w
  = (Ok A, mkWorld (fs w) (write_error w) (stdout w) (stdin w)
                   (clock w) (S (ticks w)) (timestamp_us w))
  /\ fromisoformat (isoformat (Appointment.start_time A)) = Ok (Appointment.start_time A)
  /\ fromisoformat (isoformat (Appointment.end_time A)) = Ok (Appointment.end_time A).
Proof.
  intros Vs Ve.
  pose proof (fromisoformat_isoformat _ Vs) as Rs.
  pose proof (fromisoformat_isoformat _ Ve) as Re.
  split; [|split; assumption].
  unfold Appointment.from_dict, Appointment.to_dict, Appointment.getitem,
    Appointment.get_default.
  destruct (record_lookups (Appointment.id A) (Appointment.title A)
              (isoformat (Appointment.start_time A)) (isoformat (Appointment.end_time A))
              (Appointment.description A) (Appointment.location A))
    as (-> & -> & -> & -> & -> & ->).
  unfold pure, mbind, ST_bind, result_bind. rewrite Rs, Re.
  unfold Appointment.init, Appointment._generate_id, now, get, mret, ST_ret,
    mbind, ST_bind.
  destruct A; reflexivity.
Qed.

Lemma from_dict_to_dict_witness :
  Appointment.from_dict (Appointment.to_dict nine_to_eleven) sample_world
  = (Ok nine_to_eleven,
     mkWorld ∅ ∅ [] [] (clock sample_world) 1%nat (timestamp_us sample_world))
  /\ fromisoformat (isoformat (Appointment.start_time nine_to_eleven))
     = Ok (Appointment.start_time nine_to_eleven)
  /\ fromisoformat (isoformat (Appointment.end_time nine_to_eleven))
     = Ok (Appointment.end_time nine_to_eleven).
Proof.
  apply (from_dict_to_dict nine_to_eleven sample_world); reflexivity.
Defined.

(** ** The stable sort by a datetime key *)

Lemma dt_lt_le a b : dt_lt a b = true -> dt_le a b = true.
Proof.
  unfold dt_lt, dt_le. destruct (datetime_cmp a b); auto; discriminate.
Qed.

Lemma dt_lt_asym a b : dt_lt a b = true -> dt_lt b a = false.
Proof.
  unfold dt_lt. rewrite (datetime_cmp_antisym a b).
  destruct (datetime_cmp a b); auto; discriminate.
Qed.

Lemma dt_le_trans a b c : dt_le a b = true -> dt_le b c = true -> dt_le a c = true.
Proof.
  rewrite !dt_le_not_lt, !negb_true_iff. intros H1 H2.
  destruct (dt_lt c a) eqn:E; [|reflexivity]. exfalso.
  unfold dt_lt in *.
  destruct (datetime_cmp b a) eqn:Eba; try discriminate.
  - apply datetime_cmp_eq in Eba. subst b. rewrite E in H2. discriminate.
  - destruct (datetime_cmp c b) eqn:Ecb; try discriminate.
    + apply datetime_cmp_eq in Ecb. subst c. rewrite Eba in E. discriminate.
    + destruct (datetime_cmp c a) eqn:Eca; try discriminate.
      assert (T : dt_lt c b = true).
      { apply (dt_lt_trans c a b).
        - unfold dt_lt. now rewrite Eca.
        - unfold dt_lt. rewrite (datetime_cmp_antisym b a), Eba. reflexivity. }
      unfold dt_lt in T. rewrite Ecb in T. discriminate.
Qed.

Section Sorted.
Context {A : Type} (key : A -> datetime).

Lemma insert_by_perm (x : A) (l : list A) : Permutation (insert_by key x l) (x :: l).
Proof.
  induction l as [|y l IH]; simpl; [reflexivity|].
  destruct (dt_lt (key y) (key x)); [|reflexivity].
  rewrite IH. apply perm_swap.
Qed.

Lemma sorted_perm (l : list A) : Permutation (sorted key l) l.
Proof.
  induction l as [|x l IH]; simpl; [reflexivity|].
  rewrite insert_by_perm. now constructor.
Qed.

Lemma insert_by_sorted (x : A) (l : list A) :
  StronglySorted (key_le key) l -> StronglySorted (key_le key) (insert_by key x l).
Proof.
  induction l as [|y l IH]; intros H; simpl.
  - repeat constructor.
  - inversion H as [|? ? Hl Hy]; subst.
    destruct (dt_lt (key y) (key x)) eqn:E.
    + constructor; [now apply IH|].
      rewrite insert_by_perm. constructor; [|exact Hy].
      now apply dt_lt_le.
    + assert (L : key_le key x y).
      { unfold key_le. now rewrite dt_le_not_lt, E. }
      constructor; [exact H|].
      constructor; [exact L|].
      eapply Forall_impl; [exact Hy|].
      intros z Hz. unfold key_le in *. now apply (dt_le_trans _ (key y)).
Qed.

Lemma sorted_sorted (l : list A) : StronglySorted (key_le key) (sorted key l).
Proof.
  induction l as [|x l IH]; simpl; [constructor | now apply insert_by_sorted].
Qed.

(** Stability: among the elements with one key, the order is kept. *)
Lemma insert_by_stable (t : datetime) (x : A) (l : list A) :
  List.filter (fun a => bool_decide (key a = t)) (insert_by key x l)
  = List.filter (fun a => bool_decide (key a = t)) (x :: l).
Proof.
  induction l as [|y l IH]; [reflexivity|].
  simpl insert_by. destruct (dt_lt (key y) (key x)) eqn:E; [|reflexivity].
  simpl List.filter in *.
  destruct (bool_decide (key y = t)) eqn:Ey.
  - apply bool_decide_eq_true in Ey.
    destruct (bool_decide (key x = t)) eqn:Ex.
    + apply bool_decide_eq_true in Ex. rewrite <- Ex in Ey. rewrite Ey in E.
      rewrite dt_lt_irrefl in E. discriminate.
    + now rewrite IH.
  - exact IH.
Qed.

Lemma sorted_stable (t : datetime) (l : list A) :
  List.filter (fun a => bool_decide (key a = t)) (sorted key l)
  = List.filter (fun a => bool_decide (key a = t)) l.
Proof.
  induction l as [|x l IH]; [reflexivity|].
  simpl sorted. rewrite insert_by_stable. simpl. now rewrite IH.
Qed.
Lemma dt_le_refl a : dt_le a a = true.
Proof. unfold dt_le. now rewrite datetime_cmp_refl. Qed.

Lemma dt_le_antisym a b : dt_le a b = true -> dt_le b a = true -> a = b.
Proof.
  unfold dt_le. rewrite (datetime_cmp_antisym a b).
  destruct (datetime_cmp a b) eqn:E; try discriminate.
  intros _ _. now apply datetime_cmp_eq.
Qed.

(** A sorted list is determined by the elements it has under each key,
    in their order: every stable sort by [key] computes [sorted key]. *)
Lemma stable_sorted_unique (l1 l2 : list A) :
  StronglySorted (key_le key) l1 -> StronglySorted (key_le key) l2 ->
  (forall t, List.filter (fun a => bool_decide (key a = t)) l1
             = List.filter (fun a => bool_decide (key a = t)) l2) ->
  l1 = l2.
Proof.
  revert l2. induction l1 as [|x l1 IH]; intros l2 S1 S2 F.
  - destruct l2 as [|y l2]; [reflexivity|].
    specialize (F (key y)). simpl in F.
    rewrite bool_decide_eq_true_2 in F by reflexivity. discriminate.
  - destruct l2 as [|y l2].
    { specialize (F (key x)). simpl in F.
      rewrite bool_decide_eq_true_2 in F by reflexivity. discriminate. }
    inversion S1 as [|? ? S1' H1]; subst. inversion S2 as [|? ? S2' H2]; subst.
    assert (Lyx : dt_le (key y) (key x) = true).
    { assert (Hin : In x (y :: l2)).
      { apply (proj1 (filter_In (fun a => bool_decide (key a = key x)) x (y :: l2))).
        rewrite <- F. simpl. rewrite bool_decide_eq_true_2 by reflexivity. now left. }
      destruct Hin as [->|Hin]; [apply dt_le_refl|].
      rewrite Forall_forall in H2. apply H2. now apply list_elem_of_In. }
    assert (Lxy : dt_le (key x) (key y) = true).
    { assert (Hin : In y (x :: l1)).
      { apply (proj1 (filter_In (fun a => bool_decide (key a = key y)) y (x :: l1))).
        rewrite F. simpl. rewrite bool_decide_eq_true_2 by reflexivity. now left. }
      destruct Hin as [->|Hin]; [apply dt_le_refl|].
      rewrite Forall_forall in H1. apply H1. now apply list_elem_of_In. }
    pose proof (dt_le_antisym _ _ Lxy Lyx) as K.
    assert (x = y).
    { specialize (F (key x)). simpl in F. rewrite <- K in F.
      rewrite bool_decide_eq_true_2 in F by reflexivity. congruence. }
    subst y. f_equal. apply IH; auto.
    intros t. specialize (F t). simpl in F.
    destruct (bool_decide (key x = t)); congruence.
Qed.

Lemma sorted_unique (l l' : list A) :
  StronglySorted (key_le key) l' ->
  (forall t, List.filter (fun a => bool_decide (key a = t)) l'
             = List.filter (fun a => bool_decide (key a = t)) l) ->
  l' = sorted key l.
Proof.
  intros S F. apply stable_sorted_unique; [exact S | apply sorted_sorted |].
  intros t. now rewrite F, sorted_stable.
Qed.

End Sorted.

(** ** Upcoming appointments *)

(** C2, as the code has it. Let [now] be the reading of the clock. When
    [now + timedelta(days)] is a datetime, [future_date],
    [get_upcoming_appointments(days)] returns the stored appointments
    whose start lies in the closed interval from [now] to [future_date],
    both ends included: the same appointments, each as often as in the
    store, sorted by start with ties in the order of the store. An
    appointment that starts before [now] is not returned. The object is
    unchanged and the world only saw the clock read. *)
Theorem get_upcoming_appointments_closed
    (self : SchedulingApp.t) (w : World) (days : Z) :
  let now := clock w (ticks w) in
  let w' := mkWorld (fs w) (write_error w) (stdout w) (stdin w)
                    (clock w) (S (ticks w)) (timestamp_us w) in
  forall future_date,
      timedelta_days days ≫= datetime_add now = Ok future_date ->
      exists upcoming,
        SchedulingApp.get_upcoming_appointments days (self, w) = (Ok upcoming, (self, w'))
        /\ (forall apt,
              In apt upcoming <->
              In apt (SchedulingApp.appointments self)
              /\ dt_le now (Appointment.start_time apt) = true
              /\ dt_le (Appointment.start_time apt) future_date = true)
        /\ Permutation upcoming
             (List.filter
                (fun apt => dt_le now (Appointment.start_time apt)
                            && dt_le (Appointment.start_time apt) future_date)
                (SchedulingApp.appointments self))
        /\ StronglySorted (key_le Appointment.start_time) upcoming
        /\ (forall t,
              List.filter (fun apt => bool_decide (Appointment.start_time apt = t)) upcoming
              = List.filter (fun apt => bool_decide (Appointment.start_time apt = t))
                  (List.filter
                     (fun apt => dt_le now (Appointment.start_time apt)
                                 && dt_le (Appointment.start_time apt) future_date)
                     (SchedulingApp.appointments self)))
        /\ (forall apt, dt_lt (Appointment.start_time apt) now = true -> ~ In apt upcoming).
Proof.
  intros now0 w'.
  - intros future_date H.
    eexists. split.
    { unfold SchedulingApp.get_upcoming_appointments, mbind at 1, ST_bind.
      unfold SchedulingApp.lift_w, now. cbn [snd fst].
      unfold mbind at 1, ST_bind, pure. fold now0. rewrite H.
      unfold mbind, ST_bind, SchedulingApp.get_self, mret, ST_ret. cbn [fst snd].
      destruct self; reflexivity. }
    assert (M : forall apt,
      In apt (sorted Appointment.start_time
                (List.filter
                   (fun apt => dt_le now0 (Appointment.start_time apt)
                               && dt_le (Appointment.start_time apt) future_date)
                   (SchedulingApp.appointments self))) <->
      In apt (SchedulingApp.appointments self)
      /\ dt_le now0 (Appointment.start_time apt) = true
      /\ dt_le (Appointment.start_time apt) future_date = true).
    { intros apt. rewrite <- !list_elem_of_In, sorted_perm, !list_elem_of_In.
      rewrite filter_In, andb_true_iff. reflexivity. }
    split; [exact M|]. split; [apply sorted_perm|]. split; [apply sorted_sorted|].
    split; [intros t; apply sorted_stable|].
    intros apt Hlt Hin. apply M in Hin. destruct Hin as (_ & Hle & _).
    rewrite dt_le_not_lt, Hlt in Hle. discriminate.
Qed.

Lemma get_upcoming_appointments_closed_witness :
  exists upcoming,
    SchedulingApp.get_upcoming_appointments 7 (upcoming_app, sample_world)
    = (Ok upcoming,
       (upcoming_app,
        mkWorld ∅ ∅ [] [] (clock sample_world) 1%nat (timestamp_us sample_world)))
    /\ (forall apt,
          In apt upcoming <->
          In apt (SchedulingApp.appointments upcoming_app)
          /\ dt_le (at_time 2025 1 6 8 0) (Appointment.start_time apt) = true
          /\ dt_le (Appointment.start_time apt) (at_time 2025 1 13 8 0) = true)
    /\ Permutation upcoming
         (List.filter
            (fun apt => dt_le (at_time 2025 1 6 8 0) (Appointment.start_time apt)
                        && dt_le (Appointment.start_time apt) (at_time 2025 1 13 8 0))
            (SchedulingApp.appointments upcoming_app))
    /\ StronglySorted (key_le Appointment.start_time) upcoming
    /\ (forall t,
          List.filter (fun apt => bool_decide (Appointment.start_time apt = t)) upcoming
          = List.filter (fun apt => bool_decide (Appointment.start_time apt = t))
              (List.filter
                 (fun apt => dt_le (at_time 2025 1 6 8 0) (Appointment.start_time apt)
                             && dt_le (Appointment.start_time apt) (at_time 2025 1 13 8 0))
                 (SchedulingApp.appointments upcoming_app)))
    /\ (forall apt,
          dt_lt (Appointment.start_time apt) (at_time 2025 1 6 8 0) = true ->
          ~ In apt upcoming).
Proof.
  apply (get_upcoming_appointments_closed upcoming_app sample_world 7
           (at_time 2025 1 13 8 0)).
  reflexivity.
Defined.

(** C2 as stated fails at the end of the window: with the clock at
    2025-01-06 08:00 and seven days ahead, the appointment that starts at
    2025-01-13 08:00, which is [now + 7 days] and so outside the half-open
    interval, is returned; the one that started a minute before [now] is
    not. *)
Lemma upcoming_includes_end_of_window :
  timedelta_days 7 ≫= datetime_add (clock sample_world (ticks sample_world))
  = Ok (at_time 2025 1 13 8 0)
  /\ Appointment.start_time week_later = at_time 2025 1 13 8 0
  /\ In week_later (SchedulingApp.appointments upcoming_app)
  /\ fst (SchedulingApp.get_upcoming_appointments 7 (upcoming_app, sample_world))
     = Ok [nine_to_eleven; week_later].
Proof. repeat split. now left. Qed.

(** ** Appointments of a day *)

Lemma days_in_month_bounds (y m : Z) : 28 <= days_in_month y m <= 31.
Proof.
  unfold days_in_month.
  repeat match goal with |- context [if ?b then _ else _] => destruct b end; lia.
Qed.

Lemma valid_date_bounds (y m d : Z) :
  valid_date y m d = true ->
  1 <= y <= 9999 /\ 1 <= m <= 12 /\ 1 <= d <= days_in_month y m.
Proof.
  unfold valid_date, MINYEAR, MAXYEAR. intros H.
  repeat (apply andb_prop in H; destruct H as [H ?]). lia.
Qed.

(** Midnight plus one day is midnight of the next day of the calendar;
    there is none after 9999-12-31. *)
Lemma end_of_day_cases (y m d : Z) :
  valid_date y m d = true ->
  (y, m, d) <> (9999, 12, 31) ->
  exists y' m' d',
    timedelta_days 1 ≫= datetime_add (mkDatetime y m d 0 0 0 0)
    = Ok (mkDatetime y' m' d' 0 0 0 0)
    /\ ((y' = y /\ m' = m /\ d' = d + 1 /\ d < days_in_month y m)
        \/ (y' = y /\ m' = m + 1 /\ d' = 1 /\ d = days_in_month y m /\ m < 12)
        \/ (y' = y + 1 /\ m' = 1 /\ d' = 1 /\ d = days_in_month y m /\ m = 12)).
Proof.
  intros V N. apply valid_date_bounds in V. destruct V as (Hy & Hm & Hd).
  unfold timedelta_days. simpl andb. cbn [mbind result_bind].
  unfold datetime_add, normalize_pair. simpl.
  change ((0 + 0) `div` 1000000) with 0. change ((0 + 0) `mod` 1000000) with 0.
  change (0 + 0 + 0) with 0. change (0 `div` 60) with 0. change (0 `mod` 60) with 0.
  change (0 + 0) with 0. change (0 `div` 60) with 0. change (0 `mod` 60) with 0.
  change (0 + 0) with 0. change (0 `div` 24) with 0. change (0 `mod` 24) with 0.
  rewrite Z.add_0_r.
  pose proof (days_in_month_bounds y m) as B.
  unfold normalize_y_m_d, MINYEAR, MAXYEAR.
  destruct (Z.ltb_spec (d + 1) 1); [lia|].
  destruct (Z.ltb_spec (days_in_month y m) (d + 1)); cbn [orb].
  - destruct (Z.eqb_spec (d + 1) 0); [lia|].
    destruct (Z.eqb_spec (d + 1) (days_in_month y m + 1)); [|lia].
    destruct (Z.ltb_spec 12 (m + 1)).
    + assert (y <> 9999).
      { intros ->. apply N. assert (m = 12) as -> by lia.
        assert (d = days_in_month 9999 12) as -> by lia. reflexivity. }
      destruct (Z.leb_spec 1 (y + 1)); [|lia].
      destruct (Z.leb_spec (y + 1) 9999); [|lia].
      exists (y + 1), 1, 1. split; [reflexivity|]. right. right. lia.
    + destruct (Z.leb_spec 1 y); [|lia].
      destruct (Z.leb_spec y 9999); [|lia].
      exists y, (m + 1), 1. split; [reflexivity|]. right. left. lia.
  - destruct (Z.leb_spec 1 y); [|lia].
    destruct (Z.leb_spec y 9999); [|lia].
    exists y, m, (d + 1). split; [reflexivity|]. left. lia.
Qed.

Lemma lex3_window (y m d y' m' d' sy sm sd sh smi ss sus : Z) :
  0 <= sh -> 0 <= smi -> 0 <= ss -> 0 <= sus ->
  let s := mkDatetime sy sm sd sh smi ss sus in
  (dt_le (mkDatetime y m d 0 0 0 0) s = true <->
     lex_compare [y; m; d] [sy; sm; sd] <> Gt)
  /\ (dt_lt s (mkDatetime y' m' d' 0 0 0 0) = true <->
        lex_compare [sy; sm; sd] [y'; m'; d'] = Lt).
Proof.
  intros Hh Hmi Hs Hus s. unfold dt_le, dt_lt, datetime_cmp, fields, s.
  cbn [year month day hour minute second microsecond lex_compare].
  split.
  - destruct (Z.compare_spec y sy); [|easy|easy].
    destruct (Z.compare_spec m sm); [|easy|easy].
    destruct (Z.compare_spec d sd); [|easy|easy].
    destruct (Z.compare_spec 0 sh); [|easy|lia].
    destruct (Z.compare_spec 0 smi); [|easy|lia].
    destruct (Z.compare_spec 0 ss); [|easy|lia].
    destruct (Z.compare_spec 0 sus); [easy|easy|lia].
  - destruct (Z.compare_spec sy y'); [|easy|easy].
    destruct (Z.compare_spec sm m'); [|easy|easy].
    destruct (Z.compare_spec sd d'); [|easy|easy].
    destruct (Z.compare_spec sh 0); [|lia|easy].
    destruct (Z.compare_spec smi 0); [|lia|easy].
    destruct (Z.compare_spec ss 0); [|lia|easy].
    destruct (Z.compare_spec sus 0); [easy|lia|easy].
Qed.

Lemma lex3_le (a b c a' b' c' : Z) :
  lex_compare [a; b; c] [a'; b'; c'] <> Gt <->
  a < a' \/ (a = a' /\ (b < b' \/ (b = b' /\ c <= c'))).
Proof.
  cbn [lex_compare].
  destruct (Z.compare_spec a a'); [|split; [lia|easy]|split; [easy|lia]].
  destruct (Z.compare_spec b b'); [|split; [lia|easy]|split; [easy|lia]].
  destruct (Z.compare_spec c c'); split; try easy; try lia.
Qed.

Lemma lex3_lt (a b c a' b' c' : Z) :
  lex_compare [a; b; c] [a'; b'; c'] = Lt <->
  a < a' \/ (a = a' /\ (b < b' \/ (b = b' /\ c < c'))).
Proof.
  cbn [lex_compare].
  destruct (Z.compare_spec a a'); [|split; [lia|easy]|split; [easy|lia]].
  destruct (Z.compare_spec b b'); [|split; [lia|easy]|split; [easy|lia]].
  destruct (Z.compare_spec c c'); split; try easy; try lia.
Qed.

(** A datetime lies between midnight of a day and midnight of the next
    exactly when its date is that day. *)
Lemma same_day_iff (date s end_of_day : datetime) :
  valid_datetime date = true ->
  valid_datetime s = true ->
  timedelta_days 1 ≫= datetime_add (start_of_day date) = Ok end_of_day ->
  dt_le (start_of_day date) s && dt_lt s end_of_day = true <->
  date_of s = date_of date.
Proof.
  intros Vd Vs E.
  destruct (valid_datetime_bounds s Vs) as (_ & _ & _ & Hh & Hmi & Hs & Hus).
  unfold valid_datetime in Vd, Vs.
  apply andb_prop in Vd. destruct Vd as [Vd _].
  apply andb_prop in Vs. destruct Vs as [Vs _].
  pose proof (valid_date_bounds _ _ _ Vd) as (Dy & Dm & Dd).
  pose proof (valid_date_bounds _ _ _ Vs) as (Sy & Sm & Sd).
  assert (N : (year date, month date, day date) <> (9999, 12, 31)).
  { intros X. injection X as Xy Xm Xd. unfold start_of_day in E.
    rewrite Xy, Xm, Xd in E. discriminate E. }
  destruct (end_of_day_cases _ _ _ Vd N) as (y' & m' & d' & E' & C).
  unfold start_of_day in E. rewrite E' in E. injection E as <-.
  unfold start_of_day, date_of.
  destruct s as [sy sm sd sh smi ss sus]. cbn [year month day hour minute second microsecond] in *.
  destruct (lex3_window (year date) (month date) (day date) y' m' d'
              sy sm sd sh smi ss sus) as [L1 L2]; try lia.
  rewrite andb_true_iff, L1, L2, lex3_le, lex3_lt.
  assert (K : sy = year date -> sm = month date ->
              days_in_month sy sm = days_in_month (year date) (month date)).
  { intros -> ->. reflexivity. }
  split.
  - intros [A B]. f_equal; [f_equal|]; lia.
  - intros X. injection X as -> -> ->. lia.
Qed.

(** C3, as the code has it. For a date other than 9999-12-31, the last
    day a datetime can hold, [get_appointments_for_date(date)] returns the
    stored appointments whose start lies between midnight of that day
    (included) and midnight of the next day (excluded), in the order of
    the store; with datetimes as starts these are the appointments whose
    start has the date of that day. The end of an appointment is not
    looked at, so an appointment that goes past midnight is returned for
    the day it starts on and for no other day. *)
Theorem get_appointments_for_date_start_day (self : SchedulingApp.t) (date : datetime) :
  valid_datetime date = true ->
  date_of date <> (9999, 12, 31) ->
  Forall (fun apt => valid_datetime (Appointment.start_time apt) = true)
         (SchedulingApp.appointments self) ->
  exists end_of_day,
    timedelta_days 1 ≫= datetime_add (start_of_day date) = Ok end_of_day
    /\ SchedulingApp.get_appointments_for_date self date
       = Ok (List.filter
               (fun apt => dt_le (start_of_day date) (Appointment.start_time apt)
                           && dt_lt (Appointment.start_time apt) end_of_day)
               (SchedulingApp.appointments self))
    /\ SchedulingApp.get_appointments_for_date self date
       = Ok (List.filter
               (fun apt => bool_decide (date_of (Appointment.start_time apt) = date_of date))
               (SchedulingApp.appointments self))
    /\ exists on_date,
         SchedulingApp.get_appointments_for_date self date = Ok on_date
         /\ forall apt,
              In apt on_date <->
              In apt (SchedulingApp.appointments self)
              /\ date_of (Appointment.start_time apt) = date_of date.
Proof.
  intros V N Hall.
  assert (Vd : valid_date (year date) (month date) (day date) = true).
  { unfold valid_datetime in V. apply andb_prop in V. tauto. }
  destruct (end_of_day_cases _ _ _ Vd N) as (y' & m' & d' & E & _).
  exists (mkDatetime y' m' d' 0 0 0 0).
  assert (G : SchedulingApp.get_appointments_for_date self date
              = Ok (List.filter
                      (fun apt => dt_le (start_of_day date) (Appointment.start_time apt)
                                  && dt_lt (Appointment.start_time apt)
                                           (mkDatetime y' m' d' 0 0 0 0))
                      (SchedulingApp.appointments self))).
  { unfold SchedulingApp.get_appointments_for_date, start_of_day. rewrite E. reflexivity. }
  assert (G' : SchedulingApp.get_appointments_for_date self date
               = Ok (List.filter
                       (fun apt => bool_decide
                                     (date_of (Appointment.start_time apt) = date_of date))
                       (SchedulingApp.appointments self))).
  { rewrite G. f_equal. apply filter_ext_in. intros apt Hin.
    rewrite Forall_forall in Hall. apply list_elem_of_In, Hall in Hin.
    pose proof (same_day_iff date (Appointment.start_time apt) _ V Hin E) as S.
    destruct (bool_decide_reflect
                (date_of (Appointment.start_time apt) = date_of date)) as [Y|Y].
    - now apply S.
    - destruct (dt_le _ _ && dt_lt _ _); [|reflexivity]. exfalso. now apply Y, S. }
  split; [exact E|]. split; [exact G|]. split; [exact G'|].
  eexists. split; [exact G'|].
  intros apt. rewrite filter_In, bool_decide_eq_true. reflexivity.
Qed.

Lemma get_appointments_for_date_start_day_witness :
  exists end_of_day,
    timedelta_days 1 ≫= datetime_add (start_of_day (at_time 2025 1 6 15 30)) = Ok end_of_day
    /\ SchedulingApp.get_appointments_for_date day_app (at_time 2025 1 6 15 30)
       = Ok (List.filter
               (fun apt =>
                  dt_le (start_of_day (at_time 2025 1 6 15 30)) (Appointment.start_time apt)
                  && dt_lt (Appointment.start_time apt) end_of_day)
               (SchedulingApp.appointments day_app))
    /\ SchedulingApp.get_appointments_for_date day_app (at_time 2025 1 6 15 30)
       = Ok (List.filter
               (fun apt => bool_decide (date_of (Appointment.start_time apt)
                                        = date_of (at_time 2025 1 6 15 30)))
               (SchedulingApp.appointments day_app))
    /\ exists on_date,
         SchedulingApp.get_appointments_for_date day_app (at_time 2025 1 6 15 30) = Ok on_date
         /\ forall apt,
              In apt on_date <->
              In apt (SchedulingApp.appointments day_app)
              /\ date_of (Appointment.start_time apt) = date_of (at_time 2025 1 6 15 30).
Proof.
  apply (get_appointments_for_date_start_day day_app (at_time 2025 1 6 15 30)).
  - reflexivity.
  - discriminate.
  - repeat constructor.
Defined.

(** The appointment from 23:00 to 01:00 is returned for the day it starts
    on and not for the day it ends on. *)
Example overnight_on_its_start_day :
  SchedulingApp.get_appointments_for_date day_app (at_time 2025 1 6 0 0)
  = Ok [nine_to_eleven; overnight]
  /\ SchedulingApp.get_appointments_for_date day_app (at_time 2025 1 7 0 0)
     = Ok [next_morning].
Proof. split; reflexivity. Qed.

(** C3 as stated fails on the last day: for 9999-12-31 the end of the
    day is not a datetime, and the call raises [OverflowError] instead of
    returning the appointment that starts on that day. *)
Lemma no_appointments_for_last_day :
  valid_datetime (at_time 9999 12 31 10 0) = true
  /\ In last_day_apt (SchedulingApp.appointments last_day_app)
  /\ date_of (Appointment.start_time last_day_apt) = date_of (at_time 9999 12 31 10 0)
  /\ SchedulingApp.get_appointments_for_date last_day_app (at_time 9999 12 31 10 0)
     = Raise OverflowError.
Proof. repeat split. now left. Qed.

(** ** Loading *)

(** Text that is not JSON is handled: the error is printed and the
    appointments are reset. *)
Lemma load_appointments_malformed (self : SchedulingApp.t) (w : World) (msg : string) :
  fs w !! SchedulingApp.data_file self = Some (Malformed msg) ->
  SchedulingApp.load_appointments (self, w)
  = (Ok tt,
     (SchedulingApp.mk (SchedulingApp.data_file self) [],
      mkWorld (fs w) (write_error w)
              (stdout w ++ [("Error loading appointments: " +:+ msg) +:+ nl])
              (stdin w) (clock w) (ticks w) (timestamp_us w))).
Proof.
  intros H. unfold SchedulingApp.load_appointments.
  unfold mbind at 1, ST_bind, SchedulingApp.get_self. cbn [fst snd].
  unfold mbind at 1, ST_bind, SchedulingApp.get_world. cbn [fst snd].
  rewrite H. reflexivity.
Qed.

(** A record without a title is handled the same way. *)
Example load_appointments_missing_title :
  SchedulingApp.load_appointments
    (sample_app,
     mkWorld {[ "schedule.json" := Records [delete "title" (Appointment.to_dict nine_to_eleven)] ]}
             ∅ [] [] (clock sample_world) 0 (timestamp_us sample_world))
  = (Ok tt,
     (SchedulingApp.mk "schedule.json" [],
      mkWorld {[ "schedule.json" := Records [delete "title" (Appointment.to_dict nine_to_eleven)] ]}
              ∅ ["Error loading appointments: 'title'" +:+ nl] []
              (clock sample_world) 0 (timestamp_us sample_world))).
Proof. vm_compute. reflexivity. Qed.

(** C7 fails on a timestamp that is not ISO 8601 text. The data file
    holds one record, as the program writes it except for the text
    ["not-a-date"] under [start_time]. [fromisoformat] raises [ValueError],
    which the handler of [load_appointments] does not catch: the method
    raises, nothing is printed, the appointments are not reset, and the
    constructor of [SchedulingApp] raises as well. *)
Theorem load_appointments_bad_timestamp :
  fs corrupt_world !! "schedule.json" = Some (Records [bad_record])
  /\ Appointment.getitem bad_record "start_time" = Ok "not-a-date"
  /\ fromisoformat "not-a-date" = Raise ValueError
  /\ SchedulingApp.caught_on_load ValueError = false
  /\ SchedulingApp.load_appointments (sample_app, corrupt_world)
     = (Raise ValueError, (sample_app, corrupt_world))
  /\ SchedulingApp.init "schedule.json" corrupt_world = (Raise ValueError, corrupt_world).
Proof. repeat split; vm_compute; reflexivity. Qed.

(** ** Parsing dates *)

Lemma match_alt_split (alt : list charclass) (cs m rest : list ascii) :
  match_alt alt cs = Some (m, rest) ->
  cs = m ++ rest /\ length m = length alt
  /\ Forall2 (fun p c => p c = true) alt m.
Proof.
  revert cs m rest. induction alt as [|p alt IH]; intros cs m rest; simpl.
  - intros [= <- <-]. repeat split. constructor.
  - destruct cs as [|c cs]; [discriminate|].
    destruct (p c) eqn:Ep; [|discriminate].
    destruct (match_alt alt cs) as [[m' r']|] eqn:E; [|discriminate].
    cbn [mbind option_bind]. intros [= <- <-].
    destruct (IH _ _ _ E) as (-> & L & F).
    repeat split; [simpl; now rewrite L | now constructor].
Qed.

Lemma first_some_inv {A B} (f : A -> option B) (l : list A) (b : B) :
  first_some f l = Some b -> exists a, In a l /\ f a = Some b.
Proof.
  induction l as [|a l IH]; simpl; [discriminate|].
  destruct (f a) as [b'|] eqn:E.
  - intros [= <-]. exists a. split; [now left | exact E].
  - intros H. destruct (IH H) as (a' & Hin & Ha'). exists a'. split; [now right | exact Ha'].
Qed.

(** A text that matches a format starting with [%Y] starts with four
    digits. *)
Lemma year_first_digits (ds : list directive) (cs : list ascii) (p : parsed)
    (r : parsed * list ascii) :
  match_directives (DirY :: ds) cs p = Some r ->
  exists c0 c1 c2 c3 rest,
    cs = c0 :: c1 :: c2 :: c3 :: rest
    /\ is_digit c0 = true /\ is_digit c1 = true /\ is_digit c2 = true.
Proof.
  cbn [match_directives]. intros H.
  apply first_some_inv in H. destruct H as (alt & Hin & H).
  destruct Hin as [<-|[]].
  destruct (match_alt _ cs) as [[m rest]|] eqn:E; [|discriminate].
  apply match_alt_split in E. destruct E as (-> & _ & F).
  inversion F as [|? c0 ? ? D0 F0]; subst.
  inversion F0 as [|? c1 ? ? D1 F1]; subst.
  inversion F1 as [|? c2 ? ? D2 F2]; subst.
  inversion F2 as [|? c3 ? ? D3 F3]; subst.
  inversion F3; subst.
  exists c0, c1, c2, c3, rest. auto.
Qed.

(** A text that matches a format starting with [%m/] or [%d/] has a slash
    in second or third place. *)
Lemma slash_after_first (d : directive) (ds : list directive) (cs : list ascii)
    (p : parsed) (r : parsed * list ascii) :
  d = Dirm \/ d = Dird ->
  match_directives (d :: Lit "/" :: ds) cs p = Some r ->
  (exists c0 rest, cs = c0 :: "/"%char :: rest)
  \/ (exists c0 c1 rest, cs = c0 :: c1 :: "/"%char :: rest).
Proof.
  intros Hd H. cbn [match_directives] in H.
  apply first_some_inv in H. destruct H as (alt & Hin & H).
  destruct (match_alt alt cs) as [[m rest]|] eqn:E; [|discriminate].
  apply match_alt_split in E. destruct E as (-> & L & _).
  cbn [alternatives first_some] in H.
  destruct (match_alt [one "/"] rest) as [[m' rest']|] eqn:E'; [|discriminate].
  apply match_alt_split in E'. destruct E' as (-> & _ & F).
  inversion F as [|? c ? ? S F']; subst. inversion F'; subst.
  unfold one in S. apply Ascii.eqb_eq in S. subst c.
  assert (Hl : length alt = 1%nat \/ length alt = 2%nat).
  { destruct Hd as [-> | ->]; simpl in Hin;
      repeat (destruct Hin as [<-|Hin]; [simpl; auto|]); destruct Hin. }
  destruct m as [|c0 [|c1 [|c2 m]]]; simpl in L.
  - lia.
  - left. eauto.
  - right. eauto.
  - lia.
Qed.

Lemma strptime_raises (s fmt : string) (e : exn) :
  strptime s fmt = Raise e -> e = ValueError.
Proof.
  unfold strptime, datetime_new.
  repeat match goal with
         | |- context [match ?x with _ => _ end] => destruct x
         end; congruence.
Qed.

Lemma strptime_ok_inv (s fmt : string) (d : datetime) :
  strptime s fmt = Ok d ->
  exists ds p,
    compile_format (list_ascii_of_string fmt) = Some ds
    /\ match_directives ds (list_ascii_of_string s) parsed_default = Some (p, [])
    /\ datetime_new (p_year p) (p_month p) (p_day p) (p_hour p) (p_minute p) 0 0 = Ok d.
Proof.
  unfold strptime.
  destruct (compile_format _) as [ds|] eqn:C; [|discriminate].
  destruct (match_directives ds _ _) as [[p [|c rest]]|] eqn:E; try discriminate.
  intros H. exists ds, p. auto.
Qed.

(** No text is accepted both by [%Y-%m-%d] and by a format with slashes. *)
Lemma dashes_or_slashes (s fmt : string) (d d' : datetime) :
  fmt = "%m/%d/%Y" \/ fmt = "%d/%m/%Y" ->
  strptime s fmt = Ok d -> strptime s "%Y-%m-%d" = Ok d' -> False.
Proof.
  intros Hf H H'.
  apply strptime_ok_inv in H. destruct H as (ds & p & C & E & _).
  apply strptime_ok_inv in H'. destruct H' as (ds' & p' & C' & E' & _).
  vm_compute in C'. injection C' as <-.
  apply year_first_digits in E'.
  destruct E' as (c0 & c1 & c2 & c3 & rest & X & D0 & D1 & D2).
  rewrite X in E.
  assert (S : (exists c rest', c0 :: c1 :: c2 :: c3 :: rest = c :: "/"%char :: rest')
              \/ (exists c c' rest', c0 :: c1 :: c2 :: c3 :: rest
                                      = c :: c' :: "/"%char :: rest')).
  { destruct Hf as [-> | ->]; vm_compute in C; injection C as <-.
    - exact (slash_after_first Dirm _ _ _ _ (or_introl eq_refl) E).
    - exact (slash_after_first Dird _ _ _ _ (or_intror eq_refl) E). }
  destruct S as [(a & t & Y) | (a & b & t & Y)].
  - injection Y as _ Y1 _. rewrite Y1 in D1. discriminate D1.
  - injection Y as _ _ Y2 _. rewrite Y2 in D2. discriminate D2.
Qed.

(** C10. [parse_datetime] takes the date from the first of the formats
    [%Y-%m-%d], [%m/%d/%Y], [%d/%m/%Y] that accepts the text, for every
    time of day that [%H:%M] accepts:
    - a text that [%Y-%m-%d] accepts is read by it;
    - a text that [%m/%d/%Y] accepts is read month first, whether or not
      [%d/%m/%Y] accepts it too;
    - a text that [%d/%m/%Y] accepts is read day first only when
      [%m/%d/%Y] refuses it.
    ["01/02/2025"] is accepted by both formats with slashes, as January 2
    and as February 1, and [parse_datetime] reads it as January 2. *)
Theorem parse_datetime_format_order (date_str time_str : string) (t : datetime) :
  strptime time_str "%H:%M" = Ok t ->
  (forall d, strptime date_str "%Y-%m-%d" = Ok d ->
     parse_datetime date_str time_str = Ok (combine (date_of d) (time_of t)))
  /\ (forall d, strptime date_str "%m/%d/%Y" = Ok d ->
        parse_datetime date_str time_str = Ok (combine (date_of d) (time_of t)))
  /\ (forall d, strptime date_str "%d/%m/%Y" = Ok d ->
        (forall d', strptime date_str "%m/%d/%Y" <> Ok d') ->
        parse_datetime date_str time_str = Ok (combine (date_of d) (time_of t)))
  /\ strptime "01/02/2025" "%m/%d/%Y" = Ok (at_time 2025 1 2 0 0)
  /\ strptime "01/02/2025" "%d/%m/%Y" = Ok (at_time 2025 2 1 0 0)
  /\ parse_datetime "01/02/2025" time_str
     = Ok (mkDatetime 2025 1 2 (hour t) (minute t) (second t) (microsecond t)).
Proof.
  intros Ht.
  assert (P2 : forall s d, strptime s "%m/%d/%Y" = Ok d ->
                 parse_datetime s time_str = Ok (combine (date_of d) (time_of t))).
  { intros s d H. unfold parse_datetime, date_formats. cbn [parse_date].
    destruct (strptime s "%Y-%m-%d") as [d1|e] eqn:E1.
    - exfalso. exact (dashes_or_slashes s "%m/%d/%Y" d d1 (or_introl eq_refl) H E1).
    - apply strptime_raises in E1. subst e. rewrite H, Ht. reflexivity. }
  split; [|split; [|split; [|split; [|split]]]].
  - intros d H. unfold parse_datetime, date_formats. cbn [parse_date].
    rewrite H, Ht. reflexivity.
  - apply P2.
  - intros d H N. unfold parse_datetime, date_formats. cbn [parse_date].
    destruct (strptime date_str "%Y-%m-%d") as [d1|e] eqn:E1.
    + exfalso. exact (dashes_or_slashes date_str "%d/%m/%Y" d d1 (or_intror eq_refl) H E1).
    + apply strptime_raises in E1. subst e.
      destruct (strptime date_str "%m/%d/%Y") as [d2|e] eqn:E2.
      * exfalso. exact (N d2 eq_refl).
      * apply strptime_raises in E2. subst e. rewrite H, Ht. reflexivity.
  - reflexivity.
  - reflexivity.
  - rewrite (P2 "01/02/2025" (at_time 2025 1 2 0 0) eq_refl). reflexivity.
Qed.

Lemma parse_datetime_format_order_witness :
  (forall d, strptime "01/02/2025" "%Y-%m-%d" = Ok d ->
     parse_datetime "01/02/2025" "14:30"
     = Ok (combine (date_of d) (time_of (mkDatetime 1900 1 1 14 30 0 0))))
  /\ (forall d, strptime "01/02/2025" "%m/%d/%Y" = Ok d ->
        parse_datetime "01/02/2025" "14:30"
        = Ok (combine (date_of d) (time_of (mkDatetime 1900 1 1 14 30 0 0))))
  /\ (forall d, strptime "01/02/2025" "%d/%m/%Y" = Ok d ->
        (forall d', strptime "01/02/2025" "%m/%d/%Y" <> Ok d') ->
        parse_datetime "01/02/2025" "14:30"
        = Ok (combine (date_of d) (time_of (mkDatetime 1900 1 1 14 30 0 0))))
  /\ strptime "01/02/2025" "%m/%d/%Y" = Ok (at_time 2025 1 2 0 0)
  /\ strptime "01/02/2025" "%d/%m/%Y" = Ok (at_time 2025 2 1 0 0)
  /\ parse_datetime "01/02/2025" "14:30" = Ok (mkDatetime 2025 1 2 14 30 0 0).
Proof.
  apply (parse_datetime_format_order "01/02/2025" "14:30" (mkDatetime 1900 1 1 14 30 0 0)).
  reflexivity.
Defined.


(** * Further properties of the code *)

(** ** Running the methods *)

Lemma save_appointments_run (self : SchedulingApp.t) (w : World) :
  SchedulingApp.save_appointments (self, w)
  = (Ok tt,
     (self,
      match write_error w !! SchedulingApp.data_file self with
      | None =>
          world_saved w (SchedulingApp.data_file self)
            (map Appointment.to_dict (SchedulingApp.appointments self))
      | Some msg => world_printed w [("Error saving appointments: " +:+ msg) +:+ nl]
      end)).
Proof.
  unfold SchedulingApp.save_appointments, try_except, mbind, ST_bind,
    SchedulingApp.get_self, SchedulingApp.lift_w, dump_file.
  cbn [fst snd].
  destruct (write_error w !! SchedulingApp.data_file self); reflexivity.
Qed.




(** ** Saving and loading *)




(** ** Adding, in full *)

Lemma world_printed_nil (w : World) : world_printed w [] = w.
Proof. destruct w. unfold world_printed. simpl. now rewrite app_nil_r. Qed.

Lemma world_printed_app (w : World) (a b : list string) :
  world_printed (world_printed w a) b = world_printed w (a ++ b).
Proof. unfold world_printed. simpl. now rewrite app_assoc. Qed.

Lemma print_run (line : string) (w : World) :
  print line w = (Ok tt, world_printed w [line +:+ nl]).
Proof. reflexivity. Qed.

Lemma for_each_print {A} (f : A -> string) (l : list A) (w : World) :
  for_each (fun a => print (f a)) l w
  = (Ok tt, world_printed w (map (fun a => f a +:+ nl) l)).
Proof.
  revert w. induction l as [|a l IH]; intros w.
  - simpl. now rewrite world_printed_nil.
  - cbn [for_each map]. unfold mbind, ST_bind. rewrite print_run, IH.
    now rewrite world_printed_app.
Qed.

Lemma find_conflicts_filter (self : SchedulingApp.t) (c : Appointment.t) :
  SchedulingApp.find_conflicts self c
  = List.filter (Appointment.overlaps_with c) (SchedulingApp.appointments self).
Proof. unfold SchedulingApp.find_conflicts. now rewrite find_conflicts_loop. Qed.

Lemma filter_none {A} (f : A -> bool) (l : list A) :
  (forall x, In x l -> f x = false) -> List.filter f l = [].
Proof.
  induction l as [|x l IH]; intros H; simpl; [reflexivity|].
  rewrite (H x) by now left. apply IH. intros y Hy. apply H. now right.
Qed.

Lemma filter_some {A} (f : A -> bool) (l : list A) (x : A) :
  In x l -> f x = true -> List.filter f l <> [].
Proof.
  intros Hin Hf E.
  assert (X : In x (List.filter f l)) by (apply filter_In; auto).
  rewrite E in X. destruct X.
Qed.

Lemma append_and_save_run (title : string) (new : Appointment.t)
    (self : SchedulingApp.t) (w : World) :
  SchedulingApp.append_and_save title new (self, w)
  = (Ok true,
     (SchedulingApp.mk (SchedulingApp.data_file self)
        (SchedulingApp.appointments self ++ [new]),
      world_printed
        match write_error w !! SchedulingApp.data_file self with
        | None =>
            world_saved w (SchedulingApp.data_file self)
              (map Appointment.to_dict (SchedulingApp.appointments self ++ [new]))
        | Some msg => world_printed w [("Error saving appointments: " +:+ msg) +:+ nl]
        end
        [("Appointment '" +:+ title +:+ "' added successfully!") +:+ nl])).
Proof.
  unfold SchedulingApp.append_and_save.
  unfold mbind at 1, ST_bind, SchedulingApp.get_self. cbn [fst snd].
  unfold mbind at 1, ST_bind, SchedulingApp.set_appointments. cbn [fst snd].
  unfold mbind at 1, ST_bind. rewrite save_appointments_run.
  cbn [SchedulingApp.data_file SchedulingApp.appointments].
  unfold mbind at 1, ST_bind, SchedulingApp.lift_w. cbn [fst snd].
  rewrite print_run. reflexivity.
Qed.

Lemma init_run (title : string) (st et : datetime) (desc loc : string) (w : World) :
  Appointment.init title st et desc loc w
  = (Ok (Appointment.mk (pretty (timestamp_us w (clock w (ticks w)))) title st et desc loc),
     world_ticked w 1).
Proof. reflexivity. Qed.






(** When some stored appointment overlaps the accepted interval and the
    console has no line left to read, [add_appointment] raises [EOFError]
    after the question; the object and the files are as they were. *)
Theorem add_appointment_conflict_no_answer (self : SchedulingApp.t) (w : World)
    (title : string) (start_time end_time : datetime) (description location : string) :
  let new := Appointment.mk (pretty (timestamp_us w (clock w (ticks w))))
                            title start_time end_time description location in
  dt_lt start_time end_time = true ->
  (exists apt, In apt (SchedulingApp.appointments self)
               /\ Appointment.overlaps_with new apt = true) ->
  stdin w = [] ->
  exists w',
    SchedulingApp.add_appointment title start_time end_time description location (self, w)
    = (Raise EOFError, (self, w'))
    /\ fs w' = fs w.
Proof.
  intros new Hlt (apt & Hin & Hov) Hin'.
  unfold SchedulingApp.add_appointment.
  rewrite dt_ge_not_lt, Hlt. cbn [negb].
  unfold mbind at 1, ST_bind, SchedulingApp.lift_w. cbn [fst snd].
  rewrite init_run. fold new.
  unfold mbind at 1, ST_bind, SchedulingApp.get_self. cbn [fst snd].
  rewrite find_conflicts_filter.
  destruct (List.filter (Appointment.overlaps_with new) (SchedulingApp.appointments self))
    as [|c cs] eqn:E.
  { exfalso. exact (filter_some _ _ _ Hin Hov E). }
  unfold mbind at 1, ST_bind. cbn [fst snd]. rewrite print_run.
  unfold mbind at 1, ST_bind. cbn [fst snd]. rewrite for_each_print.
  unfold mbind at 1, ST_bind. cbn [fst snd].
  unfold input, mbind at 1, ST_bind, write_stdout, read_line.
  cbn [world_printed world_ticked stdin fs write_error stdout clock ticks timestamp_us].
  rewrite Hin'. eexists. split; reflexivity.
Qed.

Lemma add_appointment_conflict_no_answer_witness :
  exists w',
    SchedulingApp.add_appointment "call" (at_time 2025 1 6 10 0) (at_time 2025 1 6 10 30)
      "" "" (sample_app, sample_world)
    = (Raise EOFError, (sample_app, w'))
    /\ fs w' = fs sample_world.
Proof.
  apply (add_appointment_conflict_no_answer sample_app sample_world "call"
           (at_time 2025 1 6 10 0) (at_time 2025 1 6 10 30) "" "").
  - reflexivity.
  - exists nine_to_eleven. split; [now left | reflexivity].
  - reflexivity.
Defined.

(** ** Identifiers *)

(** Two appointments built one after the other have the same id exactly
    when the two readings of the clock have the same timestamp in
    microseconds. *)
Theorem ids_of_successive_appointments (w : World)
    (title1 title2 : string) (s1 e1 s2 e2 : datetime) (d1 l1 d2 l2 : string) :
  exists a1 a2 w1 w2,
    Appointment.init title1 s1 e1 d1 l1 w = (Ok a1, w1)
    /\ Appointment.init title2 s2 e2 d2 l2 w1 = (Ok a2, w2)
    /\ (Appointment.id a1 = Appointment.id a2 <->
        timestamp_us w (clock w (ticks w)) = timestamp_us w (clock w (S (ticks w)))).
Proof.
  do 4 eexists. rewrite !init_run. split; [reflexivity|]. split; [reflexivity|].
  cbn [Appointment.id world_ticked timestamp_us clock ticks Nat.add].
  split; [apply (inj pretty) | intros ->; reflexivity].
Qed.

(** ** Removing, composed *)

Lemma remove_appointment_found_run (self : SchedulingApp.t) (w : World) (aid : string)
    (before after : list Appointment.t) (x : Appointment.t) :
  SchedulingApp.appointments self = before ++ x :: after ->
  (forall apt, In apt before -> Appointment.id apt <> aid) ->
  Appointment.id x = aid ->
  SchedulingApp.remove_appointment aid (self, w)
  = (Ok true,
     (SchedulingApp.mk (SchedulingApp.data_file self) (before ++ after),
      world_printed
        match write_error w !! SchedulingApp.data_file self with
        | None =>
            world_saved w (SchedulingApp.data_file self)
              (map Appointment.to_dict (before ++ after))
        | Some msg => world_printed w [("Error saving appointments: " +:+ msg) +:+ nl]
        end
        [("Removed appointment: " +:+ Appointment.title x) +:+ nl])).
Proof.
  intros E Hb Ei. unfold SchedulingApp.remove_appointment.
  unfold mbind at 1, ST_bind, SchedulingApp.get_self. cbn [fst snd].
  rewrite E, (find_by_id_first aid before after x 0 Hb Ei). cbn [Nat.add].
  rewrite delete_at_length.
  unfold mbind at 1, ST_bind, SchedulingApp.set_appointments. cbn [fst snd].
  unfold mbind at 1, ST_bind. rewrite save_appointments_run.
  cbn [SchedulingApp.data_file SchedulingApp.appointments].
  unfold mbind at 1, ST_bind, SchedulingApp.lift_w. cbn [fst snd].
  rewrite print_run. reflexivity.
Qed.

Lemma remove_appointment_missing_run (self : SchedulingApp.t) (w : World) (aid : string) :
  (forall apt, In apt (SchedulingApp.appointments self) -> Appointment.id apt <> aid) ->
  SchedulingApp.remove_appointment aid (self, w)
  = (Ok false, (self, world_printed w ["Appointment not found" +:+ nl])).
Proof.
  intros H. unfold SchedulingApp.remove_appointment.
  unfold mbind at 1, ST_bind, SchedulingApp.get_self. cbn [fst snd].
  rewrite (find_by_id_none aid _ 0 H). destruct self; reflexivity.
Qed.

(** When the ids of the store are all different, removing a stored id
    leaves exactly the appointments with another id, one fewer than
    before, and removing the same id again finds nothing: the second call
    returns [False] and changes neither the object nor the files. *)
Theorem remove_appointment_twice (self : SchedulingApp.t) (w : World) (aid : string) :
  List.NoDup (map Appointment.id (SchedulingApp.appointments self)) ->
  (exists apt, In apt (SchedulingApp.appointments self) /\ Appointment.id apt = aid) ->
  exists self' w',
    SchedulingApp.remove_appointment aid (self, w) = (Ok true, (self', w'))
    /\ S (length (SchedulingApp.appointments self'))
       = length (SchedulingApp.appointments self)
    /\ (forall apt,
          In apt (SchedulingApp.appointments self') <->
          In apt (SchedulingApp.appointments self) /\ Appointment.id apt <> aid)
    /\ SchedulingApp.remove_appointment aid (self', w')
       = (Ok false, (self', world_printed w' ["Appointment not found" +:+ nl])).
Proof.
  intros ND H.
  destruct (first_with_id aid _ H) as (before & x & after & E & Ei & Hb).
  rewrite (remove_appointment_found_run self w aid before after x E Hb Ei).
  rewrite E in ND. rewrite map_app in ND. cbn [map] in ND.
  apply NoDup_remove_2 in ND. rewrite <- map_app in ND. rewrite Ei in ND.
  assert (Hrest : forall apt, In apt (before ++ after) -> Appointment.id apt <> aid).
  { intros apt Hin Ea. apply ND. rewrite <- Ea. now apply in_map. }
  do 2 eexists. split; [reflexivity|].
  cbn [SchedulingApp.appointments]. split; [|split].
  - rewrite E, !length_app. simpl. lia.
  - intros apt. rewrite E. split.
    + intros Hin. split; [|now apply Hrest].
      apply in_app_iff in Hin. apply in_app_iff. simpl. tauto.
    + intros [Hin Hne]. apply in_app_iff in Hin. apply in_app_iff.
      destruct Hin as [Hin|[->|Hin]]; auto. contradiction.
  - apply remove_appointment_missing_run. exact Hrest.
Qed.

Lemma remove_appointment_twice_witness :
  exists self' w',
    SchedulingApp.remove_appointment "1" (sample_app, sample_world) = (Ok true, (self', w'))
    /\ S (length (SchedulingApp.appointments self'))
       = length (SchedulingApp.appointments sample_app)
    /\ (forall apt,
          In apt (SchedulingApp.appointments self') <->
          In apt (SchedulingApp.appointments sample_app) /\ Appointment.id apt <> "1")
    /\ SchedulingApp.remove_appointment "1" (self', w')
       = (Ok false, (self', world_printed w' ["Appointment not found" +:+ nl])).
Proof.
  apply (remove_appointment_twice sample_app sample_world "1").
  - repeat constructor; simpl; intros H; repeat (destruct H as [H|H]; try discriminate H);
      try destruct H.
  - exists nine_to_eleven. split; [now left | reflexivity].
Defined.

(** Adding and then removing. When no stored appointment overlaps the
    accepted interval and no stored appointment has the id the clock
    gives, removing the id of the appointment just added gives back the
    appointments that were there before, in their order; if the data
    file can be written it then holds their records. *)
Theorem remove_after_add (self : SchedulingApp.t) (w : World)
    (title : string) (start_time end_time : datetime) (description location : string) :
  let new := Appointment.mk (pretty (timestamp_us w (clock w (ticks w))))
                            title start_time end_time description location in
  dt_lt start_time end_time = true ->
  (forall apt, In apt (SchedulingApp.appointments self) ->
               Appointment.overlaps_with new apt = false
               /\ Appointment.id apt <> Appointment.id new) ->
  exists self1 w1 w2,
    SchedulingApp.add_appointment title start_time end_time description location (self, w)
    = (Ok true, (self1, w1))
    /\ SchedulingApp.appointments self1 = SchedulingApp.appointments self ++ [new]
    /\ SchedulingApp.remove_appointment (Appointment.id new) (self1, w1)
       = (Ok true, (self, w2))
    /\ (write_error w !! SchedulingApp.data_file self = None ->
        fs w2 !! SchedulingApp.data_file self
        = Some (Records (map Appointment.to_dict (SchedulingApp.appointments self)))).
Proof.
  intros new Hlt Hno.
  unfold SchedulingApp.add_appointment.
  rewrite dt_ge_not_lt, Hlt. cbn [negb].
  unfold mbind at 1, ST_bind, SchedulingApp.lift_w. cbn [fst snd].
  rewrite init_run. fold new.
  unfold mbind at 1, ST_bind, SchedulingApp.get_self. cbn [fst snd].
  rewrite find_conflicts_filter, filter_none by (intros x Hx; now apply Hno).
  rewrite append_and_save_run.
  do 3 eexists. split; [reflexivity|]. split; [reflexivity|].
  rewrite (remove_appointment_found_run _ _ (Appointment.id new)
             (SchedulingApp.appointments self) [] new);
    [| reflexivity | intros x Hx; now apply Hno | reflexivity].
  rewrite app_nil_r. cbn [SchedulingApp.data_file].
  split; [destruct self; reflexivity|].
  intros Hw. unfold world_ticked at 1 2 3 4. cbn [write_error]. rewrite Hw.
  unfold world_printed, world_saved. cbn [write_error]. rewrite Hw.
  cbn [fs]. apply lookup_insert_eq.
Qed.

Lemma remove_after_add_witness :
  exists self1 w1 w2,
    SchedulingApp.add_appointment "lunch" (at_time 2025 1 6 12 0) (at_time 2025 1 6 13 0)
      "" "" (sample_app, sample_world)
    = (Ok true, (self1, w1))
    /\ SchedulingApp.appointments self1
       = SchedulingApp.appointments sample_app
         ++ [Appointment.mk "1736150400000000" "lunch"
               (at_time 2025 1 6 12 0) (at_time 2025 1 6 13 0) "" ""]
    /\ SchedulingApp.remove_appointment "1736150400000000" (self1, w1)
       = (Ok true, (sample_app, w2))
    /\ (write_error sample_world !! SchedulingApp.data_file sample_app = None ->
        fs w2 !! SchedulingApp.data_file sample_app
        = Some (Records (map Appointment.to_dict (SchedulingApp.appointments sample_app)))).
Proof.
  apply (remove_after_add sample_app sample_world "lunch"
           (at_time 2025 1 6 12 0) (at_time 2025 1 6 13 0) "" "").
  - reflexivity.
  - intros apt [<-|[<-|[]]]; split; (reflexivity || discriminate).
Defined.

(** ** Loading, in full *)

Lemma world_ticked_0 (w : World) : world_ticked w 0 = w.
Proof. destruct w; reflexivity. Qed.

Lemma world_ticked_ticked (w : World) (a b : nat) :
  world_ticked (world_ticked w a) b = world_ticked w (b + a).
Proof. unfold world_ticked. simpl. f_equal. lia. Qed.

(** [from_dict] on a record that describes an appointment returns this
    appointment, and reads the clock once. *)
Lemma from_dict_described (data : gmap string string) (apt : Appointment.t) (w : World) :
  described_by data apt ->
  Appointment.from_dict data w = (Ok apt, world_ticked w 1).
Proof.
  intros (Hi & Ht & (s & Hs & Fs) & (e & He & Fe) & Hd & Hl).
  unfold Appointment.from_dict, Appointment.getitem, pure.
  rewrite Ht, Hs, He, Hi. unfold mbind, ST_bind, result_bind.
  rewrite Fs, Fe, init_run. cbn. rewrite <- Hd, <- Hl. destruct apt; reflexivity.
Qed.

(** [from_dict] on a record that lacks a member raises the [KeyError] of
    the first member it misses. *)
Lemma from_dict_first_missing (data : gmap string string) (k : string) (w : World) :
  first_missing data k ->
  Appointment.from_dict data w
  = (Raise (KeyError k), world_ticked w (ticks_before_missing k)).
Proof.
  unfold Appointment.from_dict, Appointment.getitem, pure, ticks_before_missing.
  intros [(-> & Ht)
         |[(-> & [t Ht] & Hs)
          |[(-> & [t Ht] & (s & sd & Hs & Fs) & He)
           |(-> & [t Ht] & (s & sd & Hs & Fs) & (e & ed & He & Fe) & Hi)]]];
    cbn [String.eqb Ascii.eqb Bool.eqb]; rewrite ?world_ticked_0.
  - rewrite Ht. reflexivity.
  - rewrite Ht, Hs. reflexivity.
  - rewrite Ht, Hs, He. unfold mbind, ST_bind, result_bind. rewrite Fs. reflexivity.
  - rewrite Ht, Hs, He, Hi. unfold mbind, ST_bind, result_bind.
    rewrite Fs, Fe, init_run. reflexivity.
Qed.

(** The record that [to_dict] writes describes the appointment. *)
Lemma described_by_to_dict (A : Appointment.t) :
  valid_datetime (Appointment.start_time A) = true ->
  valid_datetime (Appointment.end_time A) = true ->
  described_by (Appointment.to_dict A) A.
Proof.
  intros Vs Ve. unfold described_by, Appointment.to_dict, Appointment.get_default.
  destruct (record_lookups (Appointment.id A) (Appointment.title A)
              (isoformat (Appointment.start_time A)) (isoformat (Appointment.end_time A))
              (Appointment.description A) (Appointment.location A))
    as (-> & -> & -> & -> & -> & ->).
  split; [reflexivity|]. split; [reflexivity|].
  split. { eexists. split; [reflexivity|]. now apply fromisoformat_isoformat. }
  split. { eexists. split; [reflexivity|]. now apply fromisoformat_isoformat. }
  split; reflexivity.
Qed.

Lemma mapM_from_dict_cons (d : gmap string string) (data : list (gmap string string))
    (self : SchedulingApp.t) (w : World) :
  mapM (fun apt => SchedulingApp.lift_w (Appointment.from_dict apt)) (d :: data) (self, w)
  = match Appointment.from_dict d w with
    | (Ok b, w1) =>
        match mapM (fun apt => SchedulingApp.lift_w (Appointment.from_dict apt))
                   data (self, w1) with
        | (Ok bs, s) => (Ok (b :: bs), s)
        | (Raise e, s) => (Raise e, s)
        end
    | (Raise e, w1) => (Raise e, (self, w1))
    end.
Proof.
  cbn [mapM]. unfold mbind at 1, ST_bind. unfold SchedulingApp.lift_w at 1.
  cbn [fst snd]. destruct (Appointment.from_dict d w) as [[b|e] w1]; reflexivity.
Qed.

Lemma mapM_from_dict_described (data : list (gmap string string))
    (apts : list Appointment.t) (self : SchedulingApp.t) (w : World) :
  Forall2 described_by data apts ->
  mapM (fun apt => SchedulingApp.lift_w (Appointment.from_dict apt)) data (self, w)
  = (Ok apts, (self, world_ticked w (length data))).
Proof.
  intros F. revert w. induction F as [|d apt data apts D F IH]; intros w.
  - cbn [length]. rewrite world_ticked_0. reflexivity.
  - rewrite mapM_from_dict_cons, (from_dict_described d apt w D), IH, world_ticked_ticked.
    cbn [length]. replace (length data + 1)%nat with (S (length data)) by lia.
    reflexivity.
Qed.

Lemma mapM_from_dict_first_missing (good rest : list (gmap string string))
    (apts : list Appointment.t) (d : gmap string string) (k : string)
    (self : SchedulingApp.t) (w : World) :
  Forall2 described_by good apts ->
  first_missing d k ->
  mapM (fun apt => SchedulingApp.lift_w (Appointment.from_dict apt))
       (good ++ d :: rest) (self, w)
  = (Raise (KeyError k),
     (self, world_ticked w (ticks_before_missing k + length good))).
Proof.
  intros F M. revert w. induction F as [|g apt good apts D F IH]; intros w.
  - cbn [app length]. rewrite mapM_from_dict_cons, (from_dict_first_missing d k w M).
    now rewrite Nat.add_0_r.
  - cbn [app length].
    rewrite mapM_from_dict_cons, (from_dict_described g apt w D), IH, world_ticked_ticked.
    replace (ticks_before_missing k + length good + 1)%nat
      with (ticks_before_missing k + S (length good))%nat by lia.
    reflexivity.
Qed.

Lemma load_appointments_run (self : SchedulingApp.t) (w : World) :
  SchedulingApp.load_appointments (self, w)
  = match fs w !! SchedulingApp.data_file self with
    | None => (Ok tt, (self, w))
    | Some (Malformed msg) =>
        (Ok tt, (SchedulingApp.mk (SchedulingApp.data_file self) [],
                 world_printed w [("Error loading appointments: " +:+ msg) +:+ nl]))
    | Some (Records data) =>
        match mapM (fun apt => SchedulingApp.lift_w (Appointment.from_dict apt))
                   data (self, w) with
        | (Ok apts, s) => (Ok tt, (SchedulingApp.mk (SchedulingApp.data_file (fst s)) apts, snd s))
        | (Raise e, s) =>
            if SchedulingApp.caught_on_load e
            then (Ok tt, (SchedulingApp.mk (SchedulingApp.data_file (fst s)) [],
                          world_printed (snd s)
                            [("Error loading appointments: " +:+ exn_str e) +:+ nl]))
            else (Raise e, s)
        end
    end.
Proof.
  unfold SchedulingApp.load_appointments.
  unfold mbind at 1, ST_bind, SchedulingApp.get_self. cbn [fst snd].
  unfold mbind at 1, ST_bind, SchedulingApp.get_world. cbn [fst snd].
  destruct (fs w !! SchedulingApp.data_file self) as [[msg|data]|]; try reflexivity.
  unfold try_except. unfold mbind at 1, ST_bind, pure, json_load.
  unfold mbind at 1, ST_bind.
  destruct (mapM _ data (self, w)) as [[apts|e] s]; [reflexivity|].
  destruct (SchedulingApp.caught_on_load e); reflexivity.
Qed.

(** What [load_appointments] does, by what the data file holds.
    - No data file: nothing changes, the appointments are not reset.
    - Text that is not JSON: the error is printed and the appointments
      are reset to none.
    - A JSON list of objects with text members, each with its title, its
      id and two timestamps in ISO 8601 text: the object holds the
      appointments that the records describe, record by record, and
      nothing is printed.
    - Such a list up to a record that lacks one of these members: the
      [KeyError] is printed with the name of the first member missed,
      and the appointments are reset to none.
    No file is changed. (Files that cannot be read, JSON of another
    shape and timestamps in other spellings are not covered.) *)
Theorem load_appointments_by_content (self : SchedulingApp.t) (w : World) :
  (fs w !! SchedulingApp.data_file self = None ->
   SchedulingApp.load_appointments (self, w) = (Ok tt, (self, w)))
  /\ (forall msg,
        fs w !! SchedulingApp.data_file self = Some (Malformed msg) ->
        SchedulingApp.load_appointments (self, w)
        = (Ok tt,
           (SchedulingApp.mk (SchedulingApp.data_file self) [],
            world_printed w [("Error loading appointments: " +:+ msg) +:+ nl])))
  /\ (forall data apts,
        fs w !! SchedulingApp.data_file self = Some (Records data) ->
        Forall2 described_by data apts ->
        SchedulingApp.load_appointments (self, w)
        = (Ok tt,
           (SchedulingApp.mk (SchedulingApp.data_file self) apts,
            world_ticked w (length data))))
  /\ (forall good apts d k rest,
        fs w !! SchedulingApp.data_file self = Some (Records (good ++ d :: rest)) ->
        Forall2 described_by good apts ->
        first_missing d k ->
        SchedulingApp.load_appointments (self, w)
        = (Ok tt,
           (SchedulingApp.mk (SchedulingApp.data_file self) [],
            world_printed (world_ticked w (ticks_before_missing k + length good))
              [("Error loading appointments: " +:+ ("'" +:+ k +:+ "'")) +:+ nl]))).
Proof.
  split; [|split; [|split]].
  - intros E. rewrite load_appointments_run, E. reflexivity.
  - intros msg E. rewrite load_appointments_run, E. reflexivity.
  - intros data apts E F.
    rewrite load_appointments_run, E, (mapM_from_dict_described data apts self w F).
    reflexivity.
  - intros good apts d k rest E F M.
    rewrite load_appointments_run, E,
      (mapM_from_dict_first_missing good rest apts d k self w F M).
    reflexivity.
Qed.

Lemma load_appointments_by_content_witness :
  SchedulingApp.load_appointments (sample_app, sample_world)
  = (Ok tt, (sample_app, sample_world))
  /\ SchedulingApp.load_appointments (sample_app, garbled_world)
     = (Ok tt,
        (SchedulingApp.mk "schedule.json" [],
         world_printed garbled_world
           ["Error loading appointments: Expecting value: line 1 column 1 (char 0)" +:+ nl]))
  /\ SchedulingApp.load_appointments (SchedulingApp.mk "schedule.json" [], readonly_world)
     = (Ok tt, (sample_app, world_ticked readonly_world 2))
  /\ SchedulingApp.load_appointments (sample_app, incomplete_world)
     = (Ok tt,
        (SchedulingApp.mk "schedule.json" [],
         world_printed (world_ticked incomplete_world 1)
           ["Error loading appointments: 'end_time'" +:+ nl])).
Proof.
  split; [|split; [|split]].
  - apply (proj1 (load_appointments_by_content sample_app sample_world)).
    reflexivity.
  - apply (proj1 (proj2 (load_appointments_by_content sample_app garbled_world))
             "Expecting value: line 1 column 1 (char 0)").
    reflexivity.
  - apply (proj1 (proj2 (proj2 (load_appointments_by_content
                                  (SchedulingApp.mk "schedule.json" []) readonly_world)))
             (map Appointment.to_dict [nine_to_eleven; eleven_to_twelve])
             [nine_to_eleven; eleven_to_twelve]).
    + reflexivity.
    + constructor; [apply described_by_to_dict; reflexivity|].
      constructor; [apply described_by_to_dict; reflexivity | constructor].
  - apply (proj2 (proj2 (proj2 (load_appointments_by_content sample_app incomplete_world)))
             [Appointment.to_dict nine_to_eleven] [nine_to_eleven]
             incomplete_record "end_time" []).
    + reflexivity.
    + constructor; [apply described_by_to_dict; reflexivity | constructor].
    + right. right. left. split; [reflexivity|].
      split; [exists "meeting"; vm_compute; reflexivity|].
      split; [|vm_compute; reflexivity].
      exists "2025-01-06T11:00:00", (at_time 2025 1 6 11 0).
      split; vm_compute; reflexivity.
Defined.

(** ** What [parse_datetime] returns *)

Lemma datetime_new_ok (y m d h mi s us : Z) (dt : datetime) :
  datetime_new y m d h mi s us = Ok dt ->
  dt = mkDatetime y m d h mi s us /\ valid_datetime dt = true.
Proof.
  unfold datetime_new.
  destruct (valid_date y m d && valid_time h mi s us) eqn:V; [|discriminate].
  intros [= <-]. split; [reflexivity | exact V].
Qed.

Lemma strptime_valid (s fmt : string) (dt : datetime) :
  strptime s fmt = Ok dt ->
  valid_datetime dt = true /\ second dt = 0 /\ microsecond dt = 0.
Proof.
  intros H. apply strptime_ok_inv in H. destruct H as (ds & p & _ & _ & H).
  apply datetime_new_ok in H. destruct H as [-> V]. auto.
Qed.

Lemma parse_date_inv (date_str : string) (fmts : list string) (date : Z * Z * Z) :
  parse_date date_str fmts = Ok date ->
  exists fmt x, In fmt fmts /\ strptime date_str fmt = Ok x /\ date = date_of x.
Proof.
  induction fmts as [|f fmts IH]; simpl; [discriminate|].
  destruct (strptime date_str f) as [x|e] eqn:E.
  - intros [= <-]. exists f, x. auto.
  - destruct e; try discriminate. intros H.
    destruct (IH H) as (fmt & x & Hin & Hx & Hd). exists fmt, x. auto.
Qed.

Lemma parse_date_raises (date_str : string) (fmts : list string) (e : exn) :
  parse_date date_str fmts = Raise e -> e = ValueError.
Proof.
  induction fmts as [|f fmts IH]; simpl; [congruence|].
  destruct (strptime date_str f) as [x|e'] eqn:E; [discriminate|].
  apply strptime_raises in E. subst e'. exact IH.
Qed.

(** [parse_datetime] either raises [ValueError] or returns a datetime:
    a date of the calendar (a day that its month does not have is
    refused), read by one of the three date formats, at the hour and the
    minute read by [%H:%M], with no seconds. No other exception leaves
    it. *)
Theorem parse_datetime_returns_datetime (date_str time_str : string) :
  parse_datetime date_str time_str = Raise ValueError
  \/ exists dt,
       parse_datetime date_str time_str = Ok dt
       /\ valid_datetime dt = true
       /\ second dt = 0 /\ microsecond dt = 0
       /\ (exists fmt x, In fmt date_formats /\ strptime date_str fmt = Ok x
                         /\ date_of dt = date_of x)
       /\ (exists y, strptime time_str "%H:%M" = Ok y /\ time_of dt = time_of y).
Proof.
  unfold parse_datetime.
  destruct (parse_date date_str date_formats) as [[[y m] d]|e] eqn:D.
  2:{ left. apply parse_date_raises in D. now subst e. }
  destruct (strptime time_str "%H:%M") as [t|e] eqn:T.
  2:{ left. apply strptime_raises in T. now subst e. }
  right. cbn [mbind result_bind fmap result_fmap].
  eexists. split; [reflexivity|].
  destruct (parse_date_inv _ _ _ D) as (fmt & x & Hin & Hx & Hd).
  destruct (strptime_valid _ _ _ Hx) as (Vx & _ & _).
  destruct (strptime_valid _ _ _ T) as (Vt & St & Ut).
  unfold valid_datetime in *. apply andb_prop in Vx, Vt.
  destruct Vx as [Vx _]. destruct Vt as [_ Vt].
  unfold date_of in Hd. injection Hd as -> -> ->.
  unfold combine, time_of. cbn [year month day hour minute second microsecond].
  rewrite Vx, Vt. repeat split; eauto.
Qed.

(** ** Reading the texts of dates and times *)

Lemma first_some_ext {A B} (f g : A -> option B) (l : list A) :
  (forall a, f a = g a) -> first_some f l = first_some g l.
Proof.
  intros H. induction l as [|a l IH]; simpl; [reflexivity|]. now rewrite H, IH.
Qed.

(** A directive followed by a literal character. *)
Lemma match_then_lit (D : directive) (c : ascii) (ds : list directive)
    (cs : list ascii) (p : parsed) :
  match_directives (D :: Lit c :: ds) cs p
  = first_some
      (fun alt =>
         match match_alt alt cs with
         | Some (m, c' :: r') =>
             if Ascii.eqb c c' then match_directives ds r' (store D (int_of m) p) else None
         | _ => None
         end)
      (alternatives D).
Proof.
  cbn [match_directives]. apply first_some_ext. intros alt.
  destruct (match_alt alt cs) as [[m r]|]; [|reflexivity].
  cbn [alternatives first_some match_alt].
  destruct r as [|c' r']; [reflexivity|]. unfold one.
  destruct (Ascii.eqb c c'); [|reflexivity].
  cbn [mbind option_bind store].
  destruct (match_directives ds r' (store D (int_of m) p)); reflexivity.
Qed.

Lemma Z_range_cases (P : Z -> Prop) (lo : Z) (n : nat) :
  (forall k : nat, (k < n)%nat -> P (lo + Z.of_nat k)) ->
  forall v, lo <= v < lo + Z.of_nat n -> P v.
Proof.
  intros H v Hv. replace v with (lo + Z.of_nat (Z.to_nat (v - lo))) by lia.
  apply H. lia.
Qed.

Ltac range_cases :=
  let k := fresh "k" in
  let Hk := fresh "Hk" in
  intros k Hk;
  repeat (destruct k as [|k];
          [ vm_compute;
            repeat match goal with
                   | |- context [match ?x with Some _ => _ | None => _ end] =>
                       destruct x
                   end; reflexivity
          | ]);
  exfalso; lia.

Lemma month_then (c : ascii) (m : Z) (ds : list directive) (rest : list ascii) (p : parsed) :
  c = "-"%char \/ c = "/"%char ->
  1 <= m < 1 + Z.of_nat 12 ->
  match_directives (Dirm :: Lit c :: ds) (pad 2 m ++ c :: rest) p
  = match_directives ds rest (store Dirm m p).
Proof.
  intros Hc Hm. rewrite match_then_lit.
  generalize (match_directives ds). intros K. revert m Hm.
  apply Z_range_cases.
  destruct Hc as [-> | ->]; range_cases.
Qed.

Lemma day_then (d : Z) (ds : list directive) (rest : list ascii) (p : parsed) :
  1 <= d < 1 + Z.of_nat 31 ->
  match_directives (Dird :: Lit "/" :: ds) (pad 2 d ++ "/"%char :: rest) p
  = match_directives ds rest (store Dird d p).
Proof.
  intros Hd. rewrite match_then_lit.
  generalize (match_directives ds). intros K. revert d Hd.
  apply Z_range_cases. range_cases.
Qed.

Lemma hour_then (h : Z) (ds : list directive) (rest : list ascii) (p : parsed) :
  0 <= h < 0 + Z.of_nat 24 ->
  match_directives (DirH :: Lit ":" :: ds) (pad 2 h ++ ":"%char :: rest) p
  = match_directives ds rest (store DirH h p).
Proof.
  intros Hh. rewrite match_then_lit.
  generalize (match_directives ds). intros K. revert h Hh.
  apply Z_range_cases. range_cases.
Qed.

(** [%m] does not read a number above 12. *)
Lemma month_refuses (m : Z) (ds : list directive) (rest : list ascii) (p : parsed) :
  13 <= m < 13 + Z.of_nat 19 ->
  match_directives (Dirm :: Lit "/" :: ds) (pad 2 m ++ "/"%char :: rest) p = None.
Proof.
  intros Hm. rewrite match_then_lit.
  generalize (match_directives ds). intros K. revert m Hm.
  apply Z_range_cases. range_cases.
Qed.

Lemma day_last (d : Z) (p : parsed) :
  1 <= d < 1 + Z.of_nat 31 ->
  match_directives [Dird] (pad 2 d) p = Some (store Dird d p, []).
Proof. revert d. apply Z_range_cases. range_cases. Qed.

Lemma minute_last (mi : Z) (p : parsed) :
  0 <= mi < 0 + Z.of_nat 60 ->
  match_directives [DirM] (pad 2 mi) p = Some (store DirM mi p, []).
Proof. revert mi. apply Z_range_cases. range_cases. Qed.

Lemma int_of_loop (cs : list ascii) (c : ascii) (acc : Z) :
  fold_left (fun a x => if is_digit x then 10 * a + digit_value x else a) (cs ++ [c]) acc
  = let a := fold_left (fun a x => if is_digit x then 10 * a + digit_value x else a) cs acc in
    if is_digit c then 10 * a + digit_value c else a.
Proof. now rewrite fold_left_app. Qed.

Lemma int_of_pad (n : nat) (z : Z) : int_of (pad n z) = z mod 10 ^ Z.of_nat n.
Proof.
  unfold int_of. revert z. induction n as [|n IH]; intros z.
  - simpl. now rewrite Z.mod_1_r.
  - change (pad (S n) z) with (pad n (z / 10) ++ [digit_char (z mod 10)]).
    rewrite int_of_loop. cbv zeta. rewrite IH.
    destruct (digit_char_spec (z mod 10)) as [-> ->].
    { apply Z.mod_pos_bound. lia. }
    rewrite Nat2Z.inj_succ, Z.pow_succ_r by lia.
    assert (P : 0 < 10 ^ Z.of_nat n) by (apply Z.pow_pos_nonneg; lia).
    rewrite (Z.rem_mul_r z 10 (10 ^ Z.of_nat n)) by lia. ring.
Qed.

Lemma match_alt_year (y : Z) (rest : list ascii) :
  match_alt [is_digit; is_digit; is_digit; is_digit] (pad 4 y ++ rest)
  = Some (pad 4 y, rest).
Proof.
  cbn [pad app match_alt].
  repeat match goal with
         | |- context [is_digit (digit_char (?x mod 10))] =>
             rewrite (proj1 (digit_char_spec (x mod 10)
                               (Z.mod_pos_bound x 10 ltac:(lia))))
         end.
  reflexivity.
Qed.

Lemma year_then (c : ascii) (y : Z) (ds : list directive) (rest : list ascii) (p : parsed) :
  match_directives (DirY :: Lit c :: ds) (pad 4 y ++ c :: rest) p
  = match_directives ds rest (store DirY (y mod 10000) p).
Proof.
  rewrite match_then_lit. cbn [alternatives first_some].
  rewrite match_alt_year, Ascii.eqb_refl, int_of_pad.
  change (10 ^ Z.of_nat 4) with 10000.
  destruct (match_directives ds rest _); reflexivity.
Qed.

Lemma year_last (y : Z) (p : parsed) :
  match_directives [DirY] (pad 4 y) p = Some (store DirY (y mod 10000) p, []).
Proof.
  cbn [match_directives alternatives first_some].
  rewrite <- (app_nil_r (pad 4 y)), match_alt_year, int_of_pad.
  reflexivity.
Qed.

Lemma valid_swapped (y m d : Z) :
  valid_date y m d = true -> d <= 12 -> valid_date y d m = true.
Proof.
  intros V Hd. pose proof (valid_date_bounds _ _ _ V) as (Hy & Hm & Hd').
  pose proof (days_in_month_bounds y d).
  unfold valid_date, MINYEAR, MAXYEAR.
  repeat (apply andb_true_intro; split); lia.
Qed.

Section Texts.
Variable D : datetime.
Hypothesis V : valid_datetime D = true.

Lemma text_bounds :
  1 <= year D <= 9999 /\ 1 <= month D <= 12 /\ 1 <= day D <= 31
  /\ 0 <= hour D < 24 /\ 0 <= minute D < 60
  /\ valid_date (year D) (month D) (day D) = true.
Proof.
  pose proof (valid_datetime_bounds D V) as B.
  unfold valid_datetime in V. apply andb_prop in V. intuition.
Qed.

Lemma strptime_iso_date_text :
  strptime (iso_date_text D) "%Y-%m-%d"
  = Ok (mkDatetime (year D) (month D) (day D) 0 0 0 0).
Proof.
  destruct text_bounds as (Hy & Hm & Hd & _ & _ & Vd).
  unfold strptime, iso_date_text. rewrite list_ascii_of_string_of_list_ascii.
  change (compile_format (list_ascii_of_string "%Y-%m-%d"))
    with (Some [DirY; Lit "-"; Dirm; Lit "-"; Dird]).
  cbv iota beta.
  rewrite year_then, month_then, day_last by (simpl; lia || auto).
  cbn [store p_year p_month p_day p_hour p_minute parsed_default].
  rewrite Z.mod_small by lia.
  unfold datetime_new. rewrite Vd. reflexivity.
Qed.

Lemma strptime_hour_minute_text :
  strptime (hour_minute_text D) "%H:%M"
  = Ok (mkDatetime 1900 1 1 (hour D) (minute D) 0 0).
Proof.
  destruct text_bounds as (_ & _ & _ & Hh & Hmi & _).
  unfold strptime, hour_minute_text. rewrite list_ascii_of_string_of_list_ascii.
  change (compile_format (list_ascii_of_string "%H:%M")) with (Some [DirH; Lit ":"; DirM]).
  cbv iota beta.
  rewrite hour_then, minute_last by (simpl; lia).
  cbn [store p_year p_month p_day p_hour p_minute parsed_default].
  unfold datetime_new.
  replace (valid_time (hour D) (minute D) 0 0) with true; [reflexivity|].
  symmetry. unfold valid_time. repeat (apply andb_true_intro; split); lia.
Qed.

Lemma strptime_month_first_text :
  strptime (month_first_text D) "%m/%d/%Y"
  = Ok (mkDatetime (year D) (month D) (day D) 0 0 0 0).
Proof.
  destruct text_bounds as (Hy & Hm & Hd & _ & _ & Vd).
  unfold strptime, month_first_text. rewrite list_ascii_of_string_of_list_ascii.
  change (compile_format (list_ascii_of_string "%m/%d/%Y"))
    with (Some [Dirm; Lit "/"; Dird; Lit "/"; DirY]).
  cbv iota beta.
  rewrite month_then, day_then, year_last by (simpl; lia || auto).
  cbn [store p_year p_month p_day p_hour p_minute parsed_default].
  rewrite Z.mod_small by lia.
  unfold datetime_new. rewrite Vd. reflexivity.
Qed.

Lemma strptime_day_first_text :
  strptime (day_first_text D) "%d/%m/%Y"
  = Ok (mkDatetime (year D) (month D) (day D) 0 0 0 0).
Proof.
  destruct text_bounds as (Hy & Hm & Hd & _ & _ & Vd).
  unfold strptime, day_first_text. rewrite list_ascii_of_string_of_list_ascii.
  change (compile_format (list_ascii_of_string "%d/%m/%Y"))
    with (Some [Dird; Lit "/"; Dirm; Lit "/"; DirY]).
  cbv iota beta.
  rewrite day_then, month_then, year_last by (simpl; lia || auto).
  cbn [store p_year p_month p_day p_hour p_minute parsed_default].
  rewrite Z.mod_small by lia.
  unfold datetime_new. rewrite Vd. reflexivity.
Qed.

(** Read month first, the text of day, month and year gives the date
    with day and month exchanged when the day is at most 12, and is
    refused otherwise. *)
Lemma strptime_day_first_text_month_first :
  strptime (day_first_text D) "%m/%d/%Y"
  = if day D <=? 12
    then Ok (mkDatetime (year D) (day D) (month D) 0 0 0 0)
    else Raise ValueError.
Proof.
  destruct text_bounds as (Hy & Hm & Hd & _ & _ & Vd).
  unfold strptime, day_first_text. rewrite list_ascii_of_string_of_list_ascii.
  change (compile_format (list_ascii_of_string "%m/%d/%Y"))
    with (Some [Dirm; Lit "/"; Dird; Lit "/"; DirY]).
  cbv iota beta.
  destruct (Z.leb_spec (day D) 12) as [L|L].
  - rewrite month_then, day_then, year_last by (simpl; lia || auto).
    cbn [store p_year p_month p_day p_hour p_minute parsed_default].
    rewrite Z.mod_small by lia.
    unfold datetime_new. rewrite (valid_swapped _ _ _ Vd L). reflexivity.
  - rewrite month_refuses by (simpl; lia). reflexivity.
Qed.

End Texts.

Lemma parse_date_first (s : string) (x : datetime) :
  strptime s "%Y-%m-%d" = Ok x -> parse_date s date_formats = Ok (date_of x).
Proof. intros H. unfold date_formats. cbn [parse_date]. now rewrite H. Qed.

Lemma parse_date_second (s : string) (x : datetime) :
  strptime s "%m/%d/%Y" = Ok x -> parse_date s date_formats = Ok (date_of x).
Proof.
  intros H. unfold date_formats. cbn [parse_date].
  destruct (strptime s "%Y-%m-%d") as [d1|e] eqn:E1.
  - exfalso. exact (dashes_or_slashes s "%m/%d/%Y" x d1 (or_introl eq_refl) H E1).
  - apply strptime_raises in E1. subst e. now rewrite H.
Qed.

Lemma parse_date_third (s : string) (x : datetime) :
  strptime s "%m/%d/%Y" = Raise ValueError ->
  strptime s "%d/%m/%Y" = Ok x -> parse_date s date_formats = Ok (date_of x).
Proof.
  intros H2 H. unfold date_formats. cbn [parse_date].
  destruct (strptime s "%Y-%m-%d") as [d1|e] eqn:E1.
  - exfalso. exact (dashes_or_slashes s "%d/%m/%Y" x d1 (or_intror eq_refl) H E1).
  - apply strptime_raises in E1. subst e. now rewrite H2, H.
Qed.

(** [parse_datetime] reads back the date and the time of day of a
    datetime from their texts [YYYY-MM-DD] and [HH:MM], and also from the
    text [MM/DD/YYYY] of the date: the result is the datetime at the full
    minute. *)
Theorem parse_datetime_reads_texts (d : datetime) :
  valid_datetime d = true ->
  parse_datetime (iso_date_text d) (hour_minute_text d)
  = Ok (mkDatetime (year d) (month d) (day d) (hour d) (minute d) 0 0)
  /\ parse_datetime (month_first_text d) (hour_minute_text d)
     = Ok (mkDatetime (year d) (month d) (day d) (hour d) (minute d) 0 0).
Proof.
  intros V. unfold parse_datetime.
  rewrite (parse_date_first _ _ (strptime_iso_date_text d V)).
  rewrite (parse_date_second _ _ (strptime_month_first_text d V)).
  rewrite (strptime_hour_minute_text d V). split; reflexivity.
Qed.

Lemma parse_datetime_reads_texts_witness :
  parse_datetime "2025-01-06" "09:05" = Ok (at_time 2025 1 6 9 5)
  /\ parse_datetime "01/06/2025" "09:05" = Ok (at_time 2025 1 6 9 5).
Proof.
  apply (parse_datetime_reads_texts (mkDatetime 2025 1 6 9 5 30 7)). reflexivity.
Defined.

(** From the text [DD/MM/YYYY] of a date, [parse_datetime] gives the date
    only when the day is above 12. When the day is at most 12 the text
    is read month first: the result has the day as its month and the
    month as its day, and no error is raised. *)
Theorem parse_datetime_day_first_text (d : datetime) :
  valid_datetime d = true ->
  parse_datetime (day_first_text d) (hour_minute_text d)
  = Ok (if day d <=? 12
        then mkDatetime (year d) (day d) (month d) (hour d) (minute d) 0 0
        else mkDatetime (year d) (month d) (day d) (hour d) (minute d) 0 0).
Proof.
  intros V. unfold parse_datetime.
  pose proof (strptime_day_first_text_month_first d V) as M.
  rewrite (strptime_hour_minute_text d V).
  destruct (day d <=? 12).
  - rewrite (parse_date_second _ _ M). reflexivity.
  - rewrite (parse_date_third _ _ M (strptime_day_first_text d V)). reflexivity.
Qed.

Lemma parse_datetime_day_first_text_witness :
  parse_datetime "06/01/2025" "09:05" = Ok (at_time 2025 6 1 9 5).
Proof.
  apply (parse_datetime_day_first_text (mkDatetime 2025 1 6 9 5 0 0)). reflexivity.
Defined.

(** ** The printing methods *)

Lemma print_appointment_run (apt : Appointment.t) (w : World) :
  Display.print_appointment apt w = (Ok tt, world_printed w (appointment_lines apt)).
Proof.
  unfold Display.print_appointment, appointment_lines, mbind, ST_bind.
  rewrite print_run.
  destruct (String.eqb (Appointment.description apt) "").
  - reflexivity.
  - rewrite print_run, world_printed_app. reflexivity.
Qed.

Lemma for_each_printed {A} (f : A -> ST World unit) (g : A -> list string) (l : list A)
    (w : World) :
  (forall a w', f a w' = (Ok tt, world_printed w' (g a))) ->
  for_each f l w = (Ok tt, world_printed w (flat_map g l)).
Proof.
  intros H. revert w. induction l as [|a l IH]; intros w.
  - simpl. now rewrite world_printed_nil.
  - cbn [for_each flat_map]. unfold mbind, ST_bind. rewrite H, IH.
    now rewrite world_printed_app.
Qed.

Lemma upcoming_loop_run (current_date : option (Z * Z * Z)) (l : list Appointment.t)
    (w : World) :
  Display.upcoming_loop current_date l w
  = (Ok tt,
     world_printed w
       match group_by_date l with
       | [] => []
       | (d, g) :: gs =>
           (if bool_decide (Some d = current_date) then flat_map appointment_lines g
            else group_lines (d, g))
           ++ flat_map group_lines gs
       end).
Proof.
  revert current_date w. induction l as [|apt rest IH]; intros cur w.
  - simpl. now rewrite world_printed_nil.
  - cbn [Display.upcoming_loop group_by_date].
    unfold mbind at 1, ST_bind.
    assert (Hd : (if bool_decide (Some (date_of (Appointment.start_time apt)) = cur)
                  then mret tt
                  else print (nl +:+ "--- "
                              +:+ date_header (date_of (Appointment.start_time apt))
                              +:+ " ---")) w
                 = (Ok tt,
                    world_printed w
                      (if bool_decide (Some (date_of (Appointment.start_time apt)) = cur)
                       then []
                       else [(nl +:+ "--- "
                              +:+ date_header (date_of (Appointment.start_time apt))
                              +:+ " ---") +:+ nl]))).
    { destruct (bool_decide _); [|reflexivity].
      unfold mret, ST_ret. now rewrite world_printed_nil. }
    rewrite Hd. unfold mbind at 1, ST_bind. rewrite print_appointment_run.
    rewrite IH, !world_printed_app. do 2 f_equal.
    destruct (group_by_date rest) as [|[d g] gs].
    + case_bool_decide; cbn; now rewrite ?app_nil_r.
    + repeat case_bool_decide; simplify_eq;
        cbn [group_lines flat_map fst snd app];
        rewrite ?app_nil_r, <- ?app_assoc; try reflexivity; congruence.
Qed.

Lemma dt_le_date (a b : datetime) :
  dt_le a b = true ->
  date_of a = date_of b \/ date_lt (date_of a) (date_of b).
Proof.
  unfold dt_le, datetime_cmp, fields, date_of, date_lt. cbn [lex_compare].
  destruct (Z.compare_spec (year a) (year b)) as [->| |]; [|auto|discriminate].
  destruct (Z.compare_spec (month a) (month b)) as [->| |]; [|auto|discriminate].
  destruct (Z.compare_spec (day a) (day b)) as [->| |]; [auto|auto|discriminate].
Qed.

Lemma date_lt_trans (a b c : Z * Z * Z) : date_lt a b -> date_lt b c -> date_lt a c.
Proof.
  destruct a as [[y m] d], b as [[y' m'] d'], c as [[y'' m''] d'']. unfold date_lt.
  apply lex_compare_lt_trans; reflexivity.
Qed.

Lemma date_lt_irrefl (a : Z * Z * Z) : ~ date_lt a a.
Proof.
  destruct a as [[y m] d]. unfold date_lt. rewrite lex_compare_refl. discriminate.
Qed.

Lemma group_by_date_head (apt : Appointment.t) (rest : list Appointment.t) :
  exists g gs,
    group_by_date (apt :: rest) = (date_of (Appointment.start_time apt), g) :: gs.
Proof.
  cbn [group_by_date]. destruct (group_by_date rest) as [|[d g] gs]; [eauto|].
  case_bool_decide; subst; eauto.
Qed.

Lemma group_by_date_sorted (l : list Appointment.t) :
  StronglySorted (key_le Appointment.start_time) l ->
  StronglySorted date_lt (map fst (group_by_date l)).
Proof.
  induction l as [|apt rest IH]; intros S; [constructor|].
  inversion S as [|? ? S' H]; subst. specialize (IH S').
  cbn [group_by_date].
  destruct rest as [|apt' rest'].
  { cbn. repeat constructor. }
  destruct (group_by_date_head apt' rest') as (g & gs & E). rewrite E in *.
  inversion H as [|? ? Hle _]; subst. unfold key_le in Hle.
  case_bool_decide as Hd.
  - cbn [map fst] in *. exact IH.
  - cbn [map fst] in *. constructor; [exact IH|].
    assert (L : date_lt (date_of (Appointment.start_time apt))
                        (date_of (Appointment.start_time apt'))).
    { destruct (dt_le_date _ _ Hle) as [X|X]; [congruence | exact X]. }
    constructor; [exact L|].
    inversion IH as [|? ? _ F]; subst.
    eapply Forall_impl; [exact F|]. intros d. now apply date_lt_trans.
Qed.

Lemma strictly_sorted_NoDup (l : list (Z * Z * Z)) :
  StronglySorted date_lt l -> List.NoDup l.
Proof.
  induction l as [|a l IH]; intros S; [constructor|].
  inversion S as [|? ? S' F]; subst. constructor; [|now apply IH].
  intros Hin. rewrite Forall_forall in F.
  apply (date_lt_irrefl a). apply F. now apply list_elem_of_In.
Qed.

Lemma group_by_date_concat (l : list Appointment.t) :
  concat (map snd (group_by_date l)) = l.
Proof.
  induction l as [|apt rest IH]; [reflexivity|].
  cbn [group_by_date]. destruct (group_by_date rest) as [|[d g] gs].
  - cbn in *. now rewrite <- IH.
  - case_bool_decide; cbn in *; now rewrite <- IH.
Qed.

Lemma group_by_date_members (l : list Appointment.t) :
  Forall (fun group =>
            snd group <> []
            /\ Forall (fun apt => date_of (Appointment.start_time apt) = fst group)
                      (snd group))
         (group_by_date l).
Proof.
  induction l as [|apt rest IH]; [constructor|].
  cbn [group_by_date]. destruct (group_by_date rest) as [|[d g] gs].
  - repeat constructor. discriminate.
  - inversion IH as [|? ? [Hne Hg] Hgs]; subst. cbn [fst snd] in *.
    case_bool_decide as Hd.
    + constructor; [|exact Hgs]. cbn [fst snd]. split; [discriminate|].
      constructor; [now rewrite Hd | exact Hg].
    + constructor; [|exact IH]. cbn [fst snd]. split; [discriminate|].
      repeat constructor.
Qed.

Lemma get_upcoming_appointments_run (self : SchedulingApp.t) (w : World) (days : Z)
    (future_date : datetime) :
  timedelta_days days ≫= datetime_add (clock w (ticks w)) = Ok future_date ->
  SchedulingApp.get_upcoming_appointments days (self, w)
  = (Ok (sorted Appointment.start_time
           (List.filter
              (fun apt => dt_le (clock w (ticks w)) (Appointment.start_time apt)
                          && dt_le (Appointment.start_time apt) future_date)
              (SchedulingApp.appointments self))),
     (self, world_ticked w 1)).
Proof.
  intros H.
  unfold SchedulingApp.get_upcoming_appointments, mbind at 1, ST_bind.
  unfold SchedulingApp.lift_w, now. cbn [snd fst].
  unfold mbind at 1, ST_bind, pure. rewrite H.
  unfold mbind, ST_bind, SchedulingApp.get_self, mret, ST_ret. cbn [fst snd].
  destruct self; reflexivity.
Qed.

Lemma display_upcoming_run (self : SchedulingApp.t) (w : World) (days : Z)
    (future_date : datetime) :
  timedelta_days days ≫= datetime_add (clock w (ticks w)) = Ok future_date ->
  Display.display_upcoming days (self, w)
  = (Ok tt,
     (self,
      world_printed (world_ticked w 1)
        (((nl +:+ "=== Upcoming Appointments (Next " +:+ pretty days +:+ " days) ===") +:+ nl)
         :: match sorted Appointment.start_time
                    (List.filter
                       (fun apt => dt_le (clock w (ticks w)) (Appointment.start_time apt)
                                   && dt_le (Appointment.start_time apt) future_date)
                       (SchedulingApp.appointments self)) with
            | [] => ["No upcoming appointments" +:+ nl]
            | _ :: _ =>
                flat_map group_lines
                  (group_by_date
                     (sorted Appointment.start_time
                        (List.filter
                           (fun apt => dt_le (clock w (ticks w)) (Appointment.start_time apt)
                                       && dt_le (Appointment.start_time apt) future_date)
                           (SchedulingApp.appointments self))))
            end))).
Proof.
  intros H.
  unfold Display.display_upcoming, mbind at 1, ST_bind.
  rewrite (get_upcoming_appointments_run self w days future_date H).
  unfold mbind at 1, ST_bind, SchedulingApp.lift_w. cbn [fst snd]. rewrite print_run.
  destruct (sorted Appointment.start_time _) as [|apt rest] eqn:E.
  - cbn [fst snd]. rewrite print_run, world_printed_app. reflexivity.
  - cbn [fst snd]. rewrite upcoming_loop_run, world_printed_app.
    destruct (group_by_date (apt :: rest)) as [|[d g] gs]; [reflexivity|].
    rewrite bool_decide_eq_false_2 by discriminate. reflexivity.
Qed.

(** [display_upcoming(days)], when [now + timedelta(days)] is a datetime,
    writes its title and then, for the upcoming appointments in the order
    of their start, one run for each date: the header of the date, once,
    then the appointments that start on that date. The runs are the
    upcoming appointments in order, every run has at least one
    appointment and only appointments of its date, and no two runs have
    the same date. With no upcoming appointment it writes that there is
    none. It reads the clock once and changes neither the object nor the
    files. *)
Theorem display_upcoming_one_header_per_date
    (self : SchedulingApp.t) (w : World) (days : Z) (future_date : datetime) :
  timedelta_days days ≫= datetime_add (clock w (ticks w)) = Ok future_date ->
  let upcoming :=
    sorted Appointment.start_time
      (List.filter
         (fun apt => dt_le (clock w (ticks w)) (Appointment.start_time apt)
                     && dt_le (Appointment.start_time apt) future_date)
         (SchedulingApp.appointments self)) in
  Display.display_upcoming days (self, w)
  = (Ok tt,
     (self,
      world_printed (world_ticked w 1)
        (((nl +:+ "=== Upcoming Appointments (Next " +:+ pretty days +:+ " days) ===") +:+ nl)
         :: match upcoming with
            | [] => ["No upcoming appointments" +:+ nl]
            | _ :: _ => flat_map group_lines (group_by_date upcoming)
            end)))
  /\ concat (map snd (group_by_date upcoming)) = upcoming
  /\ Forall (fun group =>
               snd group <> []
               /\ Forall (fun apt => date_of (Appointment.start_time apt) = fst group)
                         (snd group))
            (group_by_date upcoming)
  /\ List.NoDup (map fst (group_by_date upcoming)).
Proof.
  intros H upcoming.
  split; [|split; [apply group_by_date_concat|split; [apply group_by_date_members|]]].
  - exact (display_upcoming_run self w days future_date H).
  - apply strictly_sorted_NoDup, group_by_date_sorted. apply sorted_sorted.
Qed.

Lemma display_upcoming_one_header_per_date_witness :
  Display.display_upcoming 7 (upcoming_app, sample_world)
  = (Ok tt,
     (upcoming_app,
      world_printed (world_ticked sample_world 1)
        (((nl +:+ "=== Upcoming Appointments (Next " +:+ "7" +:+ " days) ===") +:+ nl)
         :: flat_map group_lines
              [((2025, 1, 6), [nine_to_eleven]); ((2025, 1, 13), [week_later])]))).
Proof.
  exact (proj1 (display_upcoming_one_header_per_date upcoming_app sample_world 7
                  (at_time 2025 1 13 8 0) eq_refl)).
Defined.

Lemma get_appointments_for_date_run (self : SchedulingApp.t) (date : datetime) :
  valid_datetime date = true ->
  date_of date <> (9999, 12, 31) ->
  Forall (fun apt => valid_datetime (Appointment.start_time apt) = true)
         (SchedulingApp.appointments self) ->
  SchedulingApp.get_appointments_for_date self date
  = Ok (List.filter
          (fun apt => bool_decide (date_of (Appointment.start_time apt) = date_of date))
          (SchedulingApp.appointments self)).
Proof.
  intros V N Hall.
  assert (Vd : valid_date (year date) (month date) (day date) = true).
  { unfold valid_datetime in V. apply andb_prop in V. tauto. }
  destruct (end_of_day_cases _ _ _ Vd N) as (y' & m' & d' & E & _).
  unfold SchedulingApp.get_appointments_for_date. fold (start_of_day date) in E.
  rewrite E. cbn [mbind result_bind]. f_equal. apply filter_ext_in. intros apt Hin.
  rewrite Forall_forall in Hall. apply list_elem_of_In, Hall in Hin.
  pose proof (same_day_iff date (Appointment.start_time apt) _ V Hin E) as S.
  destruct (bool_decide_reflect
              (date_of (Appointment.start_time apt) = date_of date)) as [Y|Y].
  - now apply S.
  - destruct (dt_le _ _ && dt_lt _ _); [|reflexivity]. exfalso. now apply Y, S.
Qed.

(** [display_schedule(date)], for a date other than 9999-12-31 and a
    store whose appointments start at datetimes, writes the title of the
    day and then the stored appointments that start on that date, in the
    order of their start (ties in the order of the store), each followed
    by an empty line; with no such appointment it writes that none is
    scheduled. Without a date it takes the date from the clock. It
    changes neither the object nor the files and does not read the
    console. *)
Theorem display_schedule_output (self : SchedulingApp.t) (w : World)
    (date : option datetime) :
  let d := match date with None => clock w (ticks w) | Some d => d end in
  let w0 := match date with None => world_ticked w 1 | Some _ => w end in
  let on_date :=
    sorted Appointment.start_time
      (List.filter
         (fun apt => bool_decide (date_of (Appointment.start_time apt) = date_of d))
         (SchedulingApp.appointments self)) in
  valid_datetime d = true ->
  date_of d <> (9999, 12, 31) ->
  Forall (fun apt => valid_datetime (Appointment.start_time apt) = true)
         (SchedulingApp.appointments self) ->
  Display.display_schedule date (self, w)
  = (Ok tt,
     (self,
      world_printed w0
        (((nl +:+ "=== Schedule for " +:+ date_header (date_of d) +:+ " ===") +:+ nl)
         :: match on_date with
            | [] => ["No appointments scheduled" +:+ nl]
            | _ :: _ => flat_map (fun apt => appointment_lines apt ++ [nl]) on_date
            end))).
Proof.
  intros d w0 on_date V N Hall.
  unfold Display.display_schedule. unfold mbind at 1, ST_bind.
  assert (E0 : match date with
               | None => SchedulingApp.lift_w now
               | Some d0 => mret d0
               end (self, w) = (Ok d, (self, w0))).
  { unfold d, w0. destruct date; [reflexivity|]. destruct w; reflexivity. }
  rewrite E0.
  unfold mbind at 1, ST_bind, SchedulingApp.get_self. cbn [fst snd].
  unfold mbind at 1, ST_bind, pure.
  rewrite (get_appointments_for_date_run self d V N Hall). fold on_date.
  unfold mbind at 1, ST_bind, SchedulingApp.lift_w. cbn [fst snd]. rewrite print_run.
  destruct on_date as [|apt rest].
  - cbn [fst snd]. rewrite print_run, world_printed_app. reflexivity.
  - cbn [fst snd].
    rewrite (for_each_printed _ (fun apt => appointment_lines apt ++ [nl])).
    + rewrite world_printed_app. reflexivity.
    + intros a w'. unfold mbind, ST_bind.
      rewrite print_appointment_run, print_run, world_printed_app. reflexivity.
Qed.

Lemma display_schedule_output_witness :
  Display.display_schedule (Some (at_time 2025 1 6 0 0)) (day_app, sample_world)
  = (Ok tt,
     (day_app,
      world_printed sample_world
        (((nl +:+ "=== Schedule for " +:+ "2025-01-06 (Monday)" +:+ " ===") +:+ nl)
         :: flat_map (fun apt => appointment_lines apt ++ [nl])
              [nine_to_eleven; overnight]))).
Proof.
  apply (display_schedule_output day_app sample_world (Some (at_time 2025 1 6 0 0))).
  - reflexivity.
  - discriminate.
  - repeat constructor.
Defined.

(** ** The [remove] command *)

Lemma find_full_id_first (text : string) (before after : list Appointment.t)
    (x : Appointment.t) :
  (forall apt, In apt before -> String.prefix text (Appointment.id apt) = false) ->
  String.prefix text (Appointment.id x) = true ->
  Main.find_full_id text (before ++ x :: after) = Some (Appointment.id x).
Proof.
  intros Hb Hx. induction before as [|y before IH]; simpl.
  - now rewrite Hx.
  - rewrite (Hb y) by now left. apply IH. intros apt Hin. apply Hb. now right.
Qed.


Lemma input_run (prompt line : string) (rest : list string) (w : World) :
  stdin w = line :: rest ->
  input prompt w
  = (Ok line, mkWorld (fs w) (write_error w) (stdout w ++ [prompt]) rest
                      (clock w) (ticks w) (timestamp_us w)).
Proof.
  intros H. unfold input, mbind, ST_bind, write_stdout, read_line. cbn [stdin].
  rewrite H. reflexivity.
Qed.

Lemma remove_command_run (self : SchedulingApp.t) (w : World) (future_date : datetime)
    (line : string) (rest : list string) :
  timedelta_days 30 ≫= datetime_add (clock w (ticks w)) = Ok future_date ->
  stdin w = line :: rest ->
  exists w1,
    fs w1 = fs w /\ write_error w1 = write_error w /\ stdin w1 = rest
    /\ (exists shown, stdout w1 = stdout w ++ shown)
    /\ Main.remove_command (self, w)
       = match Main.find_full_id (strip line) (SchedulingApp.appointments self) with
         | Some full_id =>
             if String.eqb full_id ""
             then (Ok tt, (self, world_printed w1 ["Appointment not found" +:+ nl]))
             else match SchedulingApp.remove_appointment full_id (self, w1) with
                  | (Ok _, s) => (Ok tt, s)
                  | (Raise e, s) => (Raise e, s)
                  end
         | None => (Ok tt, (self, world_printed w1 ["Appointment not found" +:+ nl]))
         end.
Proof.
  intros H Hin.
  remember (Main.remove_command (self, w)) as R eqn:ER.
  unfold Main.remove_command in ER.
  unfold mbind at 1, ST_bind, SchedulingApp.lift_w in ER. cbn [fst snd] in ER.
  rewrite print_run in ER. unfold mbind at 1, ST_bind in ER.
  rewrite (display_upcoming_run self (world_printed w [_]) 30 future_date H) in ER.
  unfold mbind at 1, ST_bind, SchedulingApp.lift_w in ER. cbn [fst snd] in ER.
  unfold fmap, ST_fmap in ER. erewrite input_run in ER by exact Hin.
  unfold mbind at 1, ST_bind, SchedulingApp.get_self in ER. cbn [fst snd] in ER.
  match type of ER with
  | _ = _ (self, ?W) => exists W
  end.
  split; [reflexivity|]. split; [reflexivity|]. split; [reflexivity|].
  split.
  { cbn [stdout world_printed world_ticked]. rewrite <- !app_assoc.
    eexists. reflexivity. }
  rewrite ER.
  destruct (Main.find_full_id (strip line) (SchedulingApp.appointments self)) as [i|];
    [|reflexivity].
  destruct (String.eqb i ""); [reflexivity|].
  unfold mbind at 1, ST_bind.
  match goal with |- context [SchedulingApp.remove_appointment i ?s] =>
    destruct (SchedulingApp.remove_appointment i s) as [[b|e] s'] end; reflexivity.
Qed.

Lemma prefix_empty (s : string) : String.prefix "" s = true.
Proof. destruct s; reflexivity. Qed.

Lemma remove_command_found (self : SchedulingApp.t) (w : World) (future_date : datetime)
    (line : string) (rest : list string) (before after : list Appointment.t)
    (x : Appointment.t) :
  timedelta_days 30 ≫= datetime_add (clock w (ticks w)) = Ok future_date ->
  stdin w = line :: rest ->
  SchedulingApp.appointments self = before ++ x :: after ->
  (forall apt, In apt before -> String.prefix (strip line) (Appointment.id apt) = false) ->
  String.prefix (strip line) (Appointment.id x) = true ->
  Appointment.id x <> "" ->
  exists w',
    Main.remove_command (self, w)
    = (Ok tt, (SchedulingApp.mk (SchedulingApp.data_file self) (before ++ after), w'))
    /\ stdin w' = rest
    /\ fs w'
       = match write_error w !! SchedulingApp.data_file self with
         | None => <[SchedulingApp.data_file self :=
                       Records (map Appointment.to_dict (before ++ after))]> (fs w)
         | Some _ => fs w
         end
    /\ (exists shown,
          stdout w'
          = stdout w ++ shown ++ [("Removed appointment: " +:+ Appointment.title x) +:+ nl]).
Proof.
  intros H Hin E Hb Hx Hne.
  destruct (remove_command_run self w future_date line rest H Hin)
    as (w1 & F1 & W1 & I1 & (shown & O1) & R).
  rewrite R, E, (find_full_id_first _ _ _ _ Hb Hx).
  destruct (String.eqb_spec (Appointment.id x) "") as [X|_]; [contradiction|].
  rewrite (remove_appointment_found_run self w1 (Appointment.id x) before after x E);
    [| |reflexivity].
  2:{ intros apt Ha Eid. apply Hb in Ha. rewrite Eid, Hx in Ha. discriminate. }
  eexists. split; [reflexivity|]. rewrite W1.
  destruct (write_error w !! SchedulingApp.data_file self) as [msg|];
    cbn [world_printed world_saved fs stdin stdout]; rewrite ?F1, O1.
  - split; [exact I1|]. split; [reflexivity|].
    exists (shown ++ [("Error saving appointments: " +:+ msg) +:+ nl]).
    rewrite <- !app_assoc. reflexivity.
  - split; [exact I1|]. split; [reflexivity|].
    exists shown. rewrite <- !app_assoc. reflexivity.
Qed.



(** A line of blanks, or an empty line, at the prompt of the [remove]
    command removes the first appointment of the store: every id starts
    with the empty text. (The first appointment is left alone only if its
    id is empty.) *)
Theorem remove_command_blank_line (self : SchedulingApp.t) (w : World)
    (future_date : datetime) (line : string) (rest : list string)
    (x : Appointment.t) (after : list Appointment.t) :
  timedelta_days 30 ≫= datetime_add (clock w (ticks w)) = Ok future_date ->
  stdin w = line :: rest ->
  strip line = "" ->
  SchedulingApp.appointments self = x :: after ->
  Appointment.id x <> "" ->
  exists w',
    Main.remove_command (self, w)
    = (Ok tt, (SchedulingApp.mk (SchedulingApp.data_file self) after, w'))
    /\ stdin w' = rest
    /\ (write_error w !! SchedulingApp.data_file self = None ->
        fs w' = <[SchedulingApp.data_file self :=
                    Records (map Appointment.to_dict after)]> (fs w)).
Proof.
  intros H Hin Hs E Hne.
  destruct (remove_command_found self w future_date line rest [] after x H Hin E)
    as (w' & R & I & F & _).
  - intros apt [].
  - rewrite Hs. apply prefix_empty.
  - exact Hne.
  - exists w'. split; [exact R|]. split; [exact I|].
    intros Hw. rewrite Hw in F. exact F.
Qed.

Lemma remove_command_blank_line_witness :
  exists w',
    Main.remove_command (upcoming_app, answering_world "  ")
    = (Ok tt, (SchedulingApp.mk "schedule.json" [minute_ago; nine_to_eleven], w'))
    /\ stdin w' = []
    /\ (write_error (answering_world "  ") !! "schedule.json" = None ->
        fs w' = <["schedule.json" :=
                    Records (map Appointment.to_dict [minute_ago; nine_to_eleven])]>
                  (fs (answering_world "  "))).
Proof.
  apply (remove_command_blank_line upcoming_app (answering_world "  ")
           (mkDatetime 2025 2 5 8 0 0 0) "  " [] week_later [minute_ago; nine_to_eleven]).
  - reflexivity.
  - reflexivity.
  - reflexivity.
  - reflexivity.
  - discriminate.
Defined.

(** ** Overlap and the store *)

(** Overlap is symmetric: [A.overlaps_with(B)] and [B.overlaps_with(A)]
    are the same for all appointments. *)
Theorem overlap_symmetric (A B : Appointment.t) :
  Appointment.overlaps_with A B = Appointment.overlaps_with B A.
Proof.
  unfold Appointment.overlaps_with. rewrite (dt_gt_lt (Appointment.end_time A)).
  rewrite (dt_gt_lt (Appointment.end_time B)). apply andb_comm.
Qed.

(** A candidate whose interval is not empty conflicts with every stored
    appointment that has the same start and the same end. *)
Theorem find_conflicts_same_range (self : SchedulingApp.t)
    (candidate stored : Appointment.t) :
  dt_lt (Appointment.start_time candidate) (Appointment.end_time candidate) = true ->
  In stored (SchedulingApp.appointments self) ->
  Appointment.start_time stored = Appointment.start_time candidate ->
  Appointment.end_time stored = Appointment.end_time candidate ->
  In stored (SchedulingApp.find_conflicts self candidate).
Proof.
  intros Hlt Hin Es Ee. rewrite find_conflicts_filter. apply filter_In.
  split; [exact Hin|]. unfold Appointment.overlaps_with.
  rewrite Es, Ee, dt_gt_lt, Hlt. reflexivity.
Qed.

Lemma find_conflicts_same_range_witness :
  In nine_to_eleven
     (SchedulingApp.find_conflicts sample_app
        (Appointment.mk "x" "copy" (at_time 2025 1 6 9 0) (at_time 2025 1 6 11 0) "" "")).
Proof.
  apply (find_conflicts_same_range sample_app
           (Appointment.mk "x" "copy" (at_time 2025 1 6 9 0) (at_time 2025 1 6 11 0) "" "")
           nine_to_eleven).
  - reflexivity.
  - now left.
  - reflexivity.
  - reflexivity.
Defined.

Lemma add_appointment_cases (self : SchedulingApp.t) (w : World)
    (title : string) (start_time end_time : datetime) (description location : string) :
  (exists r w',
     SchedulingApp.add_appointment title start_time end_time description location (self, w)
     = (r, (self, w')))
  \/ (dt_lt start_time end_time = true
      /\ exists i w',
           SchedulingApp.add_appointment title start_time end_time description location
             (self, w)
           = (Ok true,
              (SchedulingApp.mk (SchedulingApp.data_file self)
                 (SchedulingApp.appointments self
                  ++ [Appointment.mk i title start_time end_time description location]),
               w'))).
Proof.
  remember (SchedulingApp.add_appointment title start_time end_time description location
              (self, w)) as R eqn:ER.
  unfold SchedulingApp.add_appointment in ER. rewrite dt_ge_not_lt in ER.
  destruct (dt_lt start_time end_time) eqn:Hlt; cbn [negb] in ER.
  2:{ left. unfold mbind, ST_bind, SchedulingApp.lift_w in ER. cbn [fst snd] in ER.
      rewrite print_run in ER. subst R. do 2 eexists. destruct self; reflexivity. }
  unfold mbind at 1, ST_bind, SchedulingApp.lift_w in ER. cbn [fst snd] in ER.
  rewrite init_run in ER.
  unfold mbind at 1, ST_bind, SchedulingApp.get_self in ER. cbn [fst snd] in ER.
  destruct (SchedulingApp.find_conflicts self _) as [|c cs].
  { rewrite append_and_save_run in ER. subst R. right. split; [reflexivity|].
    do 2 eexists. reflexivity. }
  unfold mbind at 1, ST_bind in ER. cbn [fst snd] in ER. rewrite print_run in ER.
  unfold mbind at 1, ST_bind in ER. cbn [fst snd] in ER. rewrite for_each_print in ER.
  unfold mbind at 1, ST_bind in ER. cbn [fst snd] in ER.
  unfold input, mbind at 1, ST_bind, write_stdout, read_line in ER.
  cbn [world_printed world_ticked stdin fs write_error stdout clock ticks timestamp_us]
    in ER.
  destruct (stdin w) as [|response rest].
  { subst R. left. do 2 eexists. destruct self; reflexivity. }
  destruct (String.eqb (lower response) "y").
  - rewrite append_and_save_run in ER. subst R. right. split; [reflexivity|].
    do 2 eexists. reflexivity.
  - subst R. left. do 2 eexists. destruct self; reflexivity.
Qed.

(** Whatever [add_appointment] does (return [True] or [False], or raise
    for want of an answer), the appointments that were stored stay where
    they are, at most one is added, at the end, and it starts before it
    ends: if every stored appointment starts before it ends, this is
    still so afterwards. The data file name of the object is not
    changed. *)
Theorem add_appointment_keeps_intervals (self self' : SchedulingApp.t) (w w' : World)
    (title : string) (start_time end_time : datetime) (description location : string)
    (r : result bool) :
  SchedulingApp.add_appointment title start_time end_time description location (self, w)
  = (r, (self', w')) ->
  SchedulingApp.data_file self' = SchedulingApp.data_file self
  /\ (exists added,
        SchedulingApp.appointments self' = SchedulingApp.appointments self ++ added
        /\ (length added <= 1)%nat)
  /\ (Forall (fun apt => dt_lt (Appointment.start_time apt) (Appointment.end_time apt) = true)
             (SchedulingApp.appointments self) ->
      Forall (fun apt => dt_lt (Appointment.start_time apt) (Appointment.end_time apt) = true)
             (SchedulingApp.appointments self')).
Proof.
  intros H.
  destruct (add_appointment_cases self w title start_time end_time description location)
    as [(r0 & w0 & E) | (Hlt & i & w0 & E)]; rewrite E in H; injection H as <- <- <-.
  - split; [reflexivity|]. split; [|auto].
    exists []. split; [now rewrite app_nil_r | simpl; lia].
  - cbn [SchedulingApp.data_file SchedulingApp.appointments].
    split; [reflexivity|]. split.
    + eexists. split; [reflexivity | simpl; lia].
    + intros F. apply Forall_app. split; [exact F|]. repeat constructor. exact Hlt.
Qed.

Lemma add_appointment_keeps_intervals_witness :
  exists self',
    SchedulingApp.data_file self' = SchedulingApp.data_file sample_app
    /\ (exists added,
          SchedulingApp.appointments self' = SchedulingApp.appointments sample_app ++ added
          /\ (length added <= 1)%nat)
    /\ (Forall (fun apt => dt_lt (Appointment.start_time apt) (Appointment.end_time apt)
                           = true)
               (SchedulingApp.appointments sample_app) ->
        Forall (fun apt => dt_lt (Appointment.start_time apt) (Appointment.end_time apt)
                           = true)
               (SchedulingApp.appointments self')).
Proof.
  eexists.
  apply (add_appointment_keeps_intervals sample_app _ sample_world
           (snd (snd (SchedulingApp.add_appointment "lunch" (at_time 2025 1 6 12 0)
                        (at_time 2025 1 6 13 0) "" "" (sample_app, sample_world))))
           "lunch" (at_time 2025 1 6 12 0) (at_time 2025 1 6 13 0) "" "" (Ok true)).
  vm_compute. reflexivity.
Defined.
